(** * PicgoHelper: the uploader configuration store

    A shallow embedding of the configuration operations of the
    [PicgoHelper] class (reads and writes of the reactive configuration
    document through dotted paths, the per-type profile lists, the change
    events) together with the properties stated about them.

    Conventions of the embedding.
    - A JavaScript value is a tree [value]; an object is an association
      list whose order is the order [Object.keys] yields (insertion order;
      every key occurs once).
    - The document is the reactive configuration object.  Every write goes
      through [savePicgoConfig], every read through [getPicgoConfig], which
      hands out read-only views (Vue's [readonly]).
    - A call runs in the monad [M]: it threads the [store] (document, event
      log, id and clock counters) and either returns or throws. *)

From Stdlib Require Import String Ascii List ZArith Bool Lia Permutation FinFun.
Import ListNotations.
Open Scope string_scope.
Set Warnings "-register-all".

(** ** Values *)

Inductive value : Type :=
| VUndef
| VNull
| VBool (b : bool)
| VNum (n : Z)
| VStr (s : string)
| VArr (items : list value)
| VObj (fields : list (string * value)).

Definition obj : Type := list (string * value).

(** [!v] is false: the JavaScript truthiness test. *)
Definition truthy (v : value) : bool :=
  match v with
  | VUndef | VNull => false
  | VBool b => b
  | VNum n => negb (Z.eqb n 0)
  | VStr s => negb (String.eqb s EmptyString)
  | VArr _ | VObj _ => true
  end.

(** [a === b] where one side is a primitive; two objects are compared by
    identity in JavaScript, which never holds between a stored object and
    an argument built elsewhere. *)
Definition strict_eq (a b : value) : bool :=
  match a, b with
  | VUndef, VUndef => true
  | VNull, VNull => true
  | VBool x, VBool y => Bool.eqb x y
  | VNum x, VNum y => Z.eqb x y
  | VStr x, VStr y => String.eqb x y
  | _, _ => false
  end.

(** ** Objects as ordered field lists *)

Fixpoint lookup (k : string) (o : obj) : option value :=
  match o with
  | [] => None
  | (k', v) :: r => if String.eqb k k' then Some v else lookup k r
  end.

(** [o[k] = v]: an existing key keeps its place, a new key goes last. *)
Fixpoint put (k : string) (v : value) (o : obj) : obj :=
  match o with
  | [] => [(k, v)]
  | (k', v') :: r =>
      if String.eqb k k' then (k', v) :: r else (k', v') :: put k v r
  end.

(** [Object.assign(target, source)] on field lists. *)
Definition assign (target source : obj) : obj :=
  fold_left (fun t kv => put (fst kv) (snd kv) t) source target.

(** [v[k]] for a value that is neither null nor undefined.  Only objects
    carry the named fields the store addresses. *)
Definition get_prop (v : value) (k : string) : value :=
  match v with
  | VObj o => match lookup k o with Some x => x | None => VUndef end
  | _ => VUndef
  end.

(** ** Dotted paths (lodash [_.get] / [_.set]) *)

(** A path string is cut at every dot.  This is what lodash does with a
    key made of plain field names: letters, digits, underscore and hyphen,
    no segment starting with a digit.  lodash also reads brackets (a[0] is
    a, 0), makes an array where the next key is an index, keeps an array it
    meets on the way, refuses the keys every object inherits, and takes a
    dotted key that is itself a top-level field as that field.  None of
    this is modelled: [plain_path] and [key_in_model] below say for which
    keys and documents the model is lodash, and the paths the helper
    itself builds (uploader.<type>.configList and the like, over the ids
    of the registry) are such keys. *)
Fixpoint stringToPath (s : string) : list string :=
  match s with
  | EmptyString => [EmptyString]
  | String c r =>
      if Ascii.eqb c "." then EmptyString :: stringToPath r
      else match stringToPath r with
           | h :: t => String c h :: t
           | [] => [String c EmptyString]
           end
  end.

(** [baseGet]: follow the keys while the value is neither null nor
    undefined.  Fields are read off objects; what an array or a string
    has under an index or under length is not modelled. *)
Fixpoint baseGet (v : value) (p : list string) : value :=
  match p with
  | [] => v
  | k :: r =>
      match v with
      | VUndef | VNull => VUndef
      | _ => baseGet (get_prop v k) r
      end
  end.

(** [_.get(object, path, defaultValue)]. *)
Definition lodash_get (o : obj) (path : string) (dflt : value) : value :=
  match baseGet (VObj o) (stringToPath path) with
  | VUndef => dflt
  | r => r
  end.

(** [baseSet]: walk the path, replacing whatever is not an object on the
    way by a new object, and assign at the last key.  For plain paths
    that meet no array this is lodash's [baseSet]; with an index as next
    key lodash makes an array instead, and an array on the way it keeps. *)
Fixpoint baseSet (o : obj) (p : list string) (v : value) : obj :=
  match p with
  | [] => o
  | [k] => put k v o
  | k :: r =>
      let nested := match lookup k o with
                    | Some (VObj n) => n
                    | _ => []
                    end in
      put k (VObj (baseSet nested r v)) o
  end.

Definition lodash_set (o : obj) (path : string) (v : value) : obj :=
  baseSet o (stringToPath path) v.

(** ** The store and its monad *)

Inductive bus_event : Type :=
| CONFIG_CHANGE (configName : string) (val : value).

Record store : Type := mkStore {
  reactiveCfg : obj;            (* the live document *)
  emitted : list bus_event;     (* picgoEventBus, oldest first *)
  uuidCalls : nat;              (* calls of IdUtil.newUuid so far *)
  clockCalls : nat              (* calls of Date.now so far *)
}.

Inductive outcome (A : Type) : Type :=
| Ret (a : A) (s : store)
| Throw (s : store).
Arguments Ret {A} a s.
Arguments Throw {A} s.

Definition M (A : Type) : Type := store -> outcome A.

Definition ret {A} (a : A) : M A := fun s => Ret a s.
Definition throw {A} : M A := fun s => Throw s.
Definition bind {A B} (m : M A) (k : A -> M B) : M B :=
  fun s => match m s with
           | Ret a s' => k a s'
           | Throw s' => Throw s'
           end.

Declare Scope js_scope.
Delimit Scope js_scope with js.
Notation "x <- m ;; k" := (bind m (fun x => k))
  (at level 61, m at next level, right associativity) : js_scope.
Notation "m ;;; k" := (bind m (fun _ => k))
  (at level 61, right associativity) : js_scope.
Open Scope js_scope.

Definition read_cfg : M obj := fun s => Ret (reactiveCfg s) s.
Definition write_cfg (o : obj) : M unit :=
  fun s => Ret tt (mkStore o (emitted s) (uuidCalls s) (clockCalls s)).
Definition emit (e : bus_event) : M unit :=
  fun s => Ret tt (mkStore (reactiveCfg s) (emitted s ++ [e])
                           (uuidCalls s) (clockCalls s)).

(** ** Reads and writes of the document *)

(** [getPicgoConfig(key, defaultValue)] with a non-empty key. *)
Definition getPicgoConfig (key : string) (dflt : value) : M value :=
  o <- read_cfg ;; ret (lodash_get o key dflt).

(** One turn of the [forEach] in [savePicgoConfig]. *)
Definition save_key (rawCfg : obj) (name : string) : M unit :=
  let v := match lookup name rawCfg with Some x => x | None => VUndef end in
  o <- read_cfg ;;
  write_cfg (lodash_set o name v) ;;;
  emit (CONFIG_CHANGE name v).

Fixpoint forEach {A} (f : A -> M unit) (l : list A) : M unit :=
  match l with
  | [] => ret tt
  | x :: r => f x ;;; forEach f r
  end.

(** [savePicgoConfig(cfg)]; [None] is an absent patch. *)
Definition savePicgoConfig (cfg : option obj) : M unit :=
  match cfg with
  | None => ret tt
  | Some c => forEach (save_key c) (map fst c)
  end.

(** ** Profiles and profile lists *)

(** What [getUploaderConfigList] returns: [{ configList, defaultId }]. *)
Record IUploaderConfigItem : Type := mkItem {
  configList : value;
  defaultId : value
}.

(** The callback [item => item._id === id]; [None] when reading [_id]
    throws (the item is null or undefined). *)
Definition id_is (id item : value) : option bool :=
  match item with
  | VUndef | VNull => None
  | _ => Some (strict_eq (get_prop item "_id") id)
  end.

(** [list.find(item => item._id === id)]: the first match, or undefined. *)
Fixpoint find_by_id (id : value) (l : list value) : option value :=
  match l with
  | [] => Some VUndef
  | x :: r =>
      match id_is id x with
      | None => None
      | Some true => Some x
      | Some false => find_by_id id r
      end
  end.

(** [list.filter(item => item._id !== id)]. *)
Fixpoint filter_out_id (id : value) (l : list value) : option (list value) :=
  match l with
  | [] => Some []
  | x :: r =>
      match id_is id x, filter_out_id id r with
      | Some true, Some r' => Some r'
      | Some false, Some r' => Some (x :: r')
      | _, _ => None
      end
  end.

(** The list after [Object.assign(existConfig, ...)] changed, in place, the
    entry that [find] returned: the first entry with that id. *)
Fixpoint replace_by_id (id : value) (new : value) (l : list value)
  : list value :=
  match l with
  | [] => []
  | x :: r =>
      match id_is id x with
      | Some true => new :: r
      | _ => x :: replace_by_id id new r
      end
  end.

Definition lift_option {A} (o : option A) : M A :=
  match o with
  | Some a => ret a
  | None => throw
  end.

Section Helper.

(** The collaborators that are not part of the class: the id generator
    (its [n]-th answer), the clock (its [n]-th reading) and [trimValues],
    which returns a new object. *)
Variable newUuid : nat -> string.
Variable dateNow : nat -> Z.
Variable trimValues : value -> obj.

Definition IdUtil_newUuid : M string :=
  fun s => Ret (newUuid (uuidCalls s))
               (mkStore (reactiveCfg s) (emitted s)
                        (S (uuidCalls s)) (clockCalls s)).

Definition Date_now : M Z :=
  fun s => Ret (dateNow (clockCalls s))
               (mkStore (reactiveCfg s) (emitted s)
                        (uuidCalls s) (S (clockCalls s))).

Definition completeUploaderMetaConfig (originData : value) : M obj :=
  let trimmed := trimValues originData in
  id <- IdUtil_newUuid ;;
  created <- Date_now ;;
  updated <- Date_now ;;
  ret (assign (assign [("_configName", VStr "Default")] trimmed)
              [("_id", VStr id);
               ("_createdAt", VNum created);
               ("_updatedAt", VNum updated)]).

(** The tail of [upgradeUploaderConfig] once [uploaderConfig] is fixed. *)
Definition upgrade_persist (type : string) (uploaderConfig : value)
  : M IUploaderConfigItem :=
  let id := get_prop uploaderConfig "_id" in
  savePicgoConfig (Some
    [("uploader." ++ type,
      VObj [("configList", VArr [uploaderConfig]); ("defaultId", id)]);
     ("picBed." ++ type, uploaderConfig)]) ;;;
  ret (mkItem (VArr [uploaderConfig]) id).

(** [upgradeUploaderConfig(type)].  The legacy setting is read through
    [getPicgoConfig]: when it is stored, what comes back is a read-only
    view and the [Object.assign] onto it changes nothing (the proxy
    refuses the write without throwing); when nothing is stored, the
    default [{}] is a plain object and takes the fields. *)
Definition upgradeUploaderConfig (type : string) : M IUploaderConfigItem :=
  o <- read_cfg ;;
  match baseGet (VObj o) (stringToPath ("picBed." ++ type)) with
  | VNull => throw
  | VUndef =>
      meta <- completeUploaderMetaConfig (VObj []) ;;
      upgrade_persist type (VObj (assign [] meta))
  | view =>
      if truthy (get_prop view "_id") then upgrade_persist type view
      else (_ <- completeUploaderMetaConfig view ;;
            upgrade_persist type view)
  end.

Definition getUploaderConfigList (type : string) : M IUploaderConfigItem :=
  if String.eqb type EmptyString then ret (mkItem (VArr []) (VStr EmptyString))
  else
    currentUploaderConfig <- getPicgoConfig ("uploader." ++ type) (VObj []) ;;
    match currentUploaderConfig with
    | VNull => throw
    | _ =>
        let cl := get_prop currentUploaderConfig "configList" in
        let d := get_prop currentUploaderConfig "defaultId" in
        if truthy cl
        then ret (mkItem cl (if truthy d then d else VStr EmptyString))
        else upgradeUploaderConfig type
    end.

(** [configList.find(...)] on what [getUploaderConfigList] returned: only
    an array has [find]. *)
Definition find_in (cl id : value) : M value :=
  match cl with
  | VArr l => lift_option (find_by_id id l)
  | _ => throw
  end.

Definition selectUploaderConfig (type : string) (id : value) : M value :=
  r <- getUploaderConfigList type ;;
  config <- find_in (configList r) id ;;
  (if truthy config
   then savePicgoConfig (Some
          [("uploader." ++ type ++ ".defaultId", id);
           ("picBed." ++ type, config)])
   else ret tt) ;;;
  ret config.

Definition setDefaultPicBed (type : string) : M unit :=
  savePicgoConfig (Some
    [("picBed.current", VStr type); ("picBed.uploader", VStr type)]).

Definition changeCurrentUploader (type : string) (config id : value)
  : M unit :=
  if String.eqb type EmptyString then ret tt
  else
    (if truthy id
     then savePicgoConfig (Some [("uploader." ++ type ++ ".defaultId", id)])
     else ret tt) ;;;
    (if truthy config
     then savePicgoConfig (Some [("picBed." ++ type, config)])
     else ret tt) ;;;
    savePicgoConfig (Some
      [("picBed.current", VStr type); ("picBed.uploader", VStr type)]).

(** [Object.assign(existConfig, trimValues(config), { _updatedAt })]: the
    entry [find] returned, changed in place.  Profile entries are objects. *)
Definition merge_profile (existConfig : value) (trimmed : obj) (t : Z)
  : value :=
  let fields := match existConfig with VObj f => f | _ => [] end in
  VObj (assign (assign fields trimmed) [("_updatedAt", VNum t)]).

(** [updateUploaderConfig(type, id, config)].  [uploaderConfig.ddefaultId]
    is a field that [getUploaderConfigList] never sets, so [defaultId]
    here is undefined. *)
Definition updateUploaderConfig (type : string) (id config : value)
  : M unit :=
  uploaderConfig <- getUploaderConfigList type ;;
  match configList uploaderConfig with
  | VArr cl =>
      let defaultId := VUndef in
      existConfig <- lift_option (find_by_id id cl) ;;
      if truthy existConfig
      then
        let trimmed := trimValues config in
        t <- Date_now ;;
        let updatedConfig := merge_profile existConfig trimmed t in
        savePicgoConfig (Some
          [("uploader." ++ type ++ ".configList",
            VArr (match existConfig with
                  | VObj _ => replace_by_id id updatedConfig cl
                  | _ => cl
                  end));
           ("uploader." ++ type ++ ".defaultId", defaultId);
           ("picBed." ++ type, updatedConfig)])
      else
        meta <- completeUploaderMetaConfig config ;;
        let updatedConfig := VObj meta in
        let updatedDefaultId := get_prop updatedConfig "_id" in
        savePicgoConfig (Some
          [("uploader." ++ type ++ ".configList",
            VArr (cl ++ [updatedConfig])%list);
           ("uploader." ++ type ++ ".defaultId", updatedDefaultId);
           ("picBed." ++ type, updatedConfig)])
  | _ => throw
  end.

(** [deleteUploaderConfig(type, id)]; [None] is the bare [return].  As in
    [updateUploaderConfig], [defaultId] is read from [ddefaultId] and is
    undefined. *)
Definition deleteUploaderConfig (type : string) (id : value)
  : M (option IUploaderConfigItem) :=
  uploaderConfig <- getUploaderConfigList type ;;
  match configList uploaderConfig with
  | VArr cl =>
      let defaultId := VUndef in
      if Nat.leb (List.length cl) 1 then ret None
      else
        updatedConfigList <- lift_option (filter_out_id id cl) ;;
        newDefaultId <-
          (if strict_eq id defaultId
           then match updatedConfigList with
                | [] | VUndef :: _ | VNull :: _ => throw
                | first :: _ =>
                    let fid := get_prop first "_id" in
                    changeCurrentUploader type first fid ;;;
                    ret fid
                end
           else ret defaultId) ;;
        savePicgoConfig (Some
          [("uploader." ++ type ++ ".configList", VArr updatedConfigList)]) ;;;
        ret (Some (mkItem (VArr updatedConfigList) newDefaultId))
  | VStr s => if Nat.leb (String.length s) 1 then ret None else throw
  | _ => throw
  end.

End Helper.

(** ** The backend-type registry *)

(** An uploader plugin as far as the store looks at it: its optional
    display name. *)
Record uploader_plugin : Type := mkPlugin {
  plugin_name : value
}.

(** [ctx.helper.uploader]: the ids in registration order and the lookup. *)
Record IPicGo : Type := mkCtx {
  getIdList : list string;
  uploader_get : string -> option uploader_plugin
}.

Record IPicBedType : Type := mkBed {
  bedType : string;
  bedName : value;
  bedVisible : value
}.

(** [picBedFromDB.find(i => i.type === item)]. *)
Fixpoint find_by_type (item : string) (l : list value) : option value :=
  match l with
  | [] => Some VUndef
  | VUndef :: _ | VNull :: _ => None
  | i :: r =>
      if strict_eq (get_prop i "type") (VStr item) then Some i
      else find_by_type item r
  end.

Fixpoint mapM {A B} (f : A -> M B) (l : list A) : M (list B) :=
  match l with
  | [] => ret []
  | x :: r => y <- f x ;; ys <- mapM f r ;; ret (y :: ys)
  end.

(** The comparator handed to [sort]: it looks at its first argument only. *)
Definition github_first (a b : IPicBedType) : Z :=
  if String.eqb (bedType a) "github" then (-1)%Z else 0%Z.

(** The entry pushed when no backend type is visible; it has no
    [visible] field. *)
Definition defaultPicbed : IPicBedType :=
  mkBed "smms" (VStr "SM.MS") VUndef.

Section Registry.

(** [Array.prototype.sort] of the JavaScript engine the plugin runs on. *)
Variable array_sort :
  (IPicBedType -> IPicBedType -> Z) -> list IPicBedType -> list IPicBedType.

Variable ctx : IPicGo.

(** The callback of the [map] in [getPicBeds]. *)
Definition picBed_of (picBedFromDB : value) (item : string)
  : M IPicBedType :=
  visible <- match picBedFromDB with
             | VArr l => lift_option (find_by_type item l)
             | _ => throw
             end ;;
  plugin <- lift_option (uploader_get ctx item) ;;
  ret (mkBed item
             (if truthy (plugin_name plugin) then plugin_name plugin
              else VStr item)
             (if truthy visible then get_prop visible "visible"
              else VBool true)).

(** The list [getPicBeds] builds before it sorts it. *)
Definition picBeds_unsorted : M (list IPicBedType) :=
  fromDB <- getPicgoConfig "picBed.list" VUndef ;;
  let picBedFromDB := if truthy fromDB then fromDB else VArr [] in
  mapM (picBed_of picBedFromDB) (getIdList ctx).

Definition getPicBeds : M (list IPicBedType) :=
  picBeds <- picBeds_unsorted ;;
  ret (array_sort github_first picBeds).

Definition getVisiablePicBeds : M (list IPicBedType) :=
  picBeds <- getPicBeds ;;
  let visiablePicBeds := filter (fun item => truthy (bedVisible item)) picBeds in
  ret (if Nat.eqb (List.length visiablePicBeds) 0
       then (visiablePicBeds ++ [defaultPicbed])%list
       else visiablePicBeds).

End Registry.

(** ** Construction *)

Record PicgoHelper : Type := mkHelper {
  helper_ctx : IPicGo;
  helper_reactiveCfg : obj;
  helper_readonlyCfg : obj
}.

Inductive construction : Type :=
| Constructed (h : PicgoHelper)
| Raised (message : string).

(** [new PicgoHelper(ctx, reactiveCfg)]; [None] is a null or undefined
    argument. *)
Definition constructor (ctx : option IPicGo) (cfg : option obj)
  : construction :=
  match ctx with
  | None => Raised "PicGo ctx cannot be null"
  | Some c =>
      match cfg with
      | None => Raised "PicGo reactive config cannot be null"
      | Some r => Constructed (mkHelper c r r)
      end
  end.

(** ** Further operations of the helper *)

(** [getPicgoConfig(key, defaultValue)] for any key: without a key (or with
    the empty one) the whole read-only document comes back. *)
Definition getPicgoConfig_opt (key : option string) (dflt : value)
  : M value :=
  match key with
  | None => o <- read_cfg ;; ret (VObj o)
  | Some k =>
      if String.eqb k EmptyString then o <- read_cfg ;; ret (VObj o)
      else getPicgoConfig k dflt
  end.

(** [getCurrentUploader()]: the [||] chain asks for the next setting only
    when the one before is falsy. *)
Definition getCurrentUploader : M value :=
  u <- getPicgoConfig "picBed.uploader" VUndef ;;
  if truthy u then ret u
  else
    c <- getPicgoConfig "picBed.current" VUndef ;;
    if truthy c then ret c else ret (VStr "smms").

(** [handleRestoreState(item, name)]. *)
Definition handleRestoreState (item name : string) : M unit :=
  (if String.eqb item "uploader"
   then
     current <- getPicgoConfig "picBed.current" VUndef ;;
     if strict_eq current (VStr name)
     then savePicgoConfig (Some [("picBed.current", VStr "github");
                                 ("picBed.uploader", VStr "github")])
     else ret tt
   else ret tt) ;;;
  (if String.eqb item "transformer"
   then
     current <- getPicgoConfig "picBed.transformer" VUndef ;;
     if strict_eq current (VStr name)
     then savePicgoConfig (Some [("picBed.transformer", VStr "path")])
     else ret tt
   else ret tt).

(** [PicgoHelper.getVisiablePicBedNamesByPicBeds(picBeds)]: the names of
    the visible entries; the closing [filter] drops what is falsy. *)
Definition getVisiablePicBedNamesByPicBeds (picBeds : list IPicBedType)
  : list value :=
  filter truthy
    (map (fun item => if truthy (bedVisible item) then bedName item
                      else VNull)
         picBeds).

(** [getVisiablePicBedNames()]. *)
Definition getVisiablePicBedNames
    (array_sort : (IPicBedType -> IPicBedType -> Z) ->
                  list IPicBedType -> list IPicBedType)
    (ctx : IPicGo) : M (list value) :=
  picBeds <- getPicBeds array_sort ctx ;;
  ret (getVisiablePicBedNamesByPicBeds picBeds).

(** ** The configuration form (ConfigForm.vue) *)

(** The text a template literal makes of [formData.configId]. *)
Definition template_of (configId : option string) : string :=
  match configId with
  | Some c => c
  | None => "undefined"
  end.

Definition id_value (configId : option string) : value :=
  match configId with
  | Some c => VStr c
  | None => VUndef
  end.

Section ConfigForm.

Variable newUuid : nat -> string.
Variable dateNow : nat -> Z.
Variable trimValues : value -> obj.

(** [getCurConfigFormData()], over the props it reads: the configuration
    type, the backend type [id] and the [configId] of the form. *)
Definition getCurConfigFormData (configType id : string)
    (configId : option string) : M value :=
  if String.eqb configType "plugin" then
    getPicgoConfig_opt (Some (template_of configId))
      (VObj [("_configName", id_value configId)])
  else if String.eqb configType "uploader" then
    r <- getUploaderConfigList newUuid dateNow trimValues id ;;
    found <- find_in (configList r) (id_value configId) ;;
    ret (if truthy found then found else VObj [])
  else if String.eqb configType "transformer" then
    getPicgoConfig_opt (Some ("transformer." ++ template_of configId))
      (VObj [])
  else ret (VObj []).

(** [doSubmit(val)]; [val?._id] is undefined for a null or undefined
    [val]. *)
Definition doSubmit (configType id : string) (configId : option string)
    (val : value) : M unit :=
  if String.eqb configType "plugin" then
    savePicgoConfig (Some [(template_of configId, val)])
  else if String.eqb configType "uploader" then
    updateUploaderConfig newUuid dateNow trimValues id
      (get_prop val "_id") val
  else if String.eqb configType "transformer" then
    savePicgoConfig (Some [("transformer." ++ template_of configId, val)])
  else ret tt.

End ConfigForm.

(** *** The defaults of the form fields *)

(** [choices.filter(i => i.checked).map(i => i.value)]; [None] when a
    choice is null or undefined. *)
Fixpoint checked_of (choices : list value) : option (list value) :=
  match choices with
  | [] => Some []
  | VUndef :: _ | VNull :: _ => None
  | i :: r =>
      match checked_of r with
      | Some vs =>
          Some (if truthy (get_prop i "checked")
                then get_prop i "value" :: vs else vs)
      | None => None
      end
  end.

(** [item.choices?.filter(...).map(...) || []]. *)
Definition checked_defaults (item : value) : option (list value) :=
  match get_prop item "choices" with
  | VUndef | VNull => Some []
  | VArr choices => checked_of choices
  | _ => None
  end.

Definition fields_of (v : value) : obj :=
  match v with VObj f => f | _ => [] end.

Section FormDefaults.

Variable newUuid : nat -> string.
Variable dateNow : nat -> Z.
Variable trimValues : value -> obj.

(** lodash's [_.union(defaultValue, defaults)] and the conversion of
    [item.name] to a property key. *)
Variable lodash_union : value -> list value -> list value.
Variable ToPropertyKey : value -> string.

(** The value the [map] callback of [handleConfigChange] gives the field
    of [item]; [None] when it throws. *)
Definition default_of (config item : value) : option value :=
  let d := get_prop item "default" in
  let checkbox := strict_eq (get_prop item "type") (VStr "checkbox") in
  let d0 := if negb (strict_eq d VUndef) then d
            else if checkbox then VArr [] else VNull in
  match (if checkbox
         then option_map (fun vs => VArr (lodash_union d0 vs))
                         (checked_defaults item)
         else Some d0) with
  | Some d1 =>
      let kept := get_prop config (ToPropertyKey (get_prop item "name")) in
      Some (if truthy config && negb (strict_eq kept VUndef)
            then kept else d1)
  | None => None
  end.

(** The [map] over the fields once [configId] is known to be truthy; the
    form is [configRuleForm]. *)
Fixpoint apply_defaults (config : value) (items : list value) (form : obj)
  : option obj :=
  match items with
  | [] => Some form
  | item :: r =>
      match item with
      | VUndef | VNull => None
      | _ =>
          match default_of config item with
          | Some dv =>
              apply_defaults config r
                (put (ToPropertyKey (get_prop item "name")) dv form)
          | None => None
          end
      end
  end.

(** [handleConfigChange(val)]: what it makes of [configRuleForm]. *)
Definition handleConfigChange (isNewForm : bool) (configType id : string)
    (configId : option string) (val : list value) (form : obj) : M obj :=
  config <- (if isNewForm then ret (VObj [])
             else getCurConfigFormData newUuid dateNow trimValues
                    configType id configId) ;;
  let configId' := if isNewForm then None else configId in
  let form1 := assign form (fields_of config) in
  if Nat.ltb 0 (List.length val)
  then
    if truthy (id_value configId')
    then lift_option (apply_defaults config val form1)
    else ret form1
  else ret form1.

End FormDefaults.

(** ** Vocabulary of the statements *)

(** Only an object has the fields a path names. *)
Definition is_obj (v : value) : bool :=
  match v with VObj _ => true | _ => false end.

(** What [baseSet] descends into at key [k]. *)
Definition nested_at (k : string) (o : obj) : obj :=
  match lookup k o with
  | Some (VObj n) => n
  | _ => []
  end.

(** The effect of one patch entry on the document, and its event. *)
Definition apply_entry (o : obj) (kv : string * value) : obj :=
  lodash_set o (fst kv) (snd kv).

Definition change_event (kv : string * value) : bus_event :=
  CONFIG_CHANGE (fst kv) (snd kv).

(** What is stored at a dotted path ([undefined] when nothing is). *)
Definition stored (s : store) (path : string) : value :=
  lodash_get (reactiveCfg s) path VUndef.

(** The number of entries of a profile list whose [_id] is [id]. *)
Definition count_id (id : value) (l : list value) : nat :=
  List.length (filter (fun item => strict_eq (get_prop item "_id") id) l).

(** The length of the profile list stored for a type, 0 when none is. *)
Definition configList_length (s : store) (type : string) : nat :=
  match stored s ("uploader." ++ type ++ ".configList") with
  | VArr l => List.length l
  | _ => 0
  end.

(** The invariant on [defaultId]: when the stored profile list is not
    empty, exactly one of its entries has [defaultId] as its [_id]. *)
Definition default_consistent (s : store) (type : string) : bool :=
  match stored s ("uploader." ++ type ++ ".configList") with
  | VArr [] => true
  | VArr l =>
      Nat.eqb (count_id (stored s ("uploader." ++ type ++ ".defaultId")) l) 1
  | _ => true
  end.

(** Sample collaborators for the concrete runs: ids [id-0], [id-1], ...
    in the order asked for, a clock that advances by one per reading, and
    a [trimValues] that finds nothing to trim. *)
Definition sample_uuid (n : nat) : string :=
  "id-" ++ String (ascii_of_nat (48 + n)) EmptyString.
Definition sample_clock (n : nat) : Z := (1700000000000 + Z.of_nat n)%Z.
Definition sample_trim (v : value) : obj :=
  match v with VObj f => f | _ => [] end.

Definition empty_store : store := mkStore [] [] 0 0.

(** A document with two github profiles, [a] the default and active one. *)
Definition two_profiles : store :=
  mkStore
    [("uploader",
      VObj [("github",
             VObj [("configList",
                    VArr [VObj [("_id", VStr "a"); ("token", VStr "t1")];
                          VObj [("_id", VStr "b"); ("token", VStr "t2")]]);
                   ("defaultId", VStr "a")])]);
     ("picBed",
      VObj [("github", VObj [("_id", VStr "a"); ("token", VStr "t1")])])]
    [] 0 0.

(** The test of the [map]/[filter] pair in [getVisiablePicBeds]. *)
Definition is_visible (item : IPicBedType) : bool := truthy (bedVisible item).

(** A straight insertion sort, one shape an engine's [sort] can take: an
    element goes in front of the first one it compares below. *)
Fixpoint insert_sorted {A} (cmp : A -> A -> Z) (x : A) (l : list A)
  : list A :=
  match l with
  | [] => [x]
  | y :: r =>
      if (cmp x y <? 0)%Z then x :: y :: r else y :: insert_sorted cmp x r
  end.

Definition sample_sort {A} (cmp : A -> A -> Z) (l : list A) : list A :=
  fold_left (fun acc x => insert_sorted cmp x acc) l [].

(** A registry of three backend types; the imgur plugin has no name. *)
Definition sample_ctx : IPicGo :=
  mkCtx ["smms"; "github"; "imgur"]
        (fun id =>
           if String.eqb id "smms" then Some (mkPlugin (VStr "SM.MS"))
           else if String.eqb id "github" then Some (mkPlugin (VStr "GitHub"))
           else if String.eqb id "imgur" then Some (mkPlugin VUndef)
           else None).

(** A document whose visibility list hides every registered type. *)
Definition all_hidden : store :=
  mkStore
    [("picBed",
      VObj [("list",
             VArr [VObj [("type", VStr "smms"); ("visible", VBool false)];
                   VObj [("type", VStr "github"); ("visible", VBool false)];
                   VObj [("type", VStr "imgur"); ("visible", VBool false)]])])]
    [] 0 0.

(** A document from before profile lists: one smms setting, which already
    carries an [_id]. *)
Definition legacy_with_id : store :=
  mkStore
    [("picBed",
      VObj [("smms", VObj [("_id", VStr "x"); ("token", VStr "abc")])])]
    [] 0 0.

(** The [visible] flag [getPicBeds] gives a type: the one of the first
    preference entry for the type, true when there is none. *)
Definition pref_visible (picBedFromDB : list value) (item : string) : value :=
  match find_by_type item picBedFromDB with
  | Some v => if truthy v then get_prop v "visible" else VBool true
  | None => VBool true
  end.

(** The name [getPicBeds] gives a type: the plugin's, or the id. *)
Definition bed_name (ctx : IPicGo) (item : string) : value :=
  match uploader_get ctx item with
  | Some p => if truthy (plugin_name p) then plugin_name p else VStr item
  | None => VStr item
  end.

Definition bed_of (ctx : IPicGo) (picBedFromDB : list value) (item : string)
  : IPicBedType :=
  mkBed item (bed_name ctx item) (pref_visible picBedFromDB item).

Definition not_nullish (v : value) : bool :=
  match v with VUndef | VNull => false | _ => true end.

Definition registered (ctx : IPicGo) (item : string) : bool :=
  match uploader_get ctx item with Some _ => true | None => false end.

(** A run of [updateUploaderConfig] calls on one type, in order. *)
Fixpoint update_all (newUuid : nat -> string) (dateNow : nat -> Z)
    (trimValues : value -> obj) (type : string)
    (calls : list (value * value)) : M unit :=
  match calls with
  | [] => ret tt
  | (id, config) :: r =>
      updateUploaderConfig newUuid dateNow trimValues type id config ;;;
      update_all newUuid dateNow trimValues type r
  end.

(** No entry of the list has [id] as its [_id]. *)
Definition id_absent (id : value) (cl : list value) : Prop :=
  Forall (fun item => id_is id item = Some false) cl.

(** A document whose two settings of the active type disagree. *)
Definition current_github_uploader_smms : store :=
  mkStore
    [("picBed", VObj [("current", VStr "github");
                      ("uploader", VStr "smms");
                      ("transformer", VStr "path")])]
    [] 0 0.

(** The entries of a profile list whose [_id] is not [id]. *)
Definition without_id (id : value) (cl : list value) : list value :=
  filter (fun item => negb (strict_eq (get_prop item "_id") id)) cl.

Definition is_array (v : value) : bool :=
  match v with VArr _ => true | _ => false end.

(** A document in which the github profile list is not a list. *)
Definition list_is_object : store :=
  mkStore
    [("uploader",
      VObj [("github", VObj [("configList", VObj [("0", VStr "a")]);
                             ("defaultId", VStr "a")])])]
    [] 0 0.

(** A field description the form can take its default from. *)
Definition field_ok (item : value) : bool :=
  not_nullish item
  && match checked_defaults item with Some _ => true | None => false end.

(** The property key of a field, and whether the stored configuration
    has a value for a key. *)
Definition field_key (ToPropertyKey : value -> string) (item : value)
  : string :=
  ToPropertyKey (get_prop item "name").

Definition field_kept (config : value) (k : string) : bool :=
  truthy config && negb (strict_eq (get_prop config k) VUndef).

(** Sample collaborators of the form: a union that appends what is new,
    compared as primitives, and the key of a string name. *)
Definition sample_union (d : value) (vs : list value) : list value :=
  let base := match d with VArr l => l | _ => [] end in
  fold_left (fun acc v => if existsb (strict_eq v) acc then acc
                          else (acc ++ [v])%list)
            (base ++ vs)%list [].

Definition sample_key (v : value) : string :=
  match v with
  | VStr n => n
  | _ => "undefined"
  end.

(** A document with one transformer configured. *)
Definition watermark_configured : store :=
  mkStore
    [("transformer", VObj [("watermark", VObj [("text", VStr "stored")])])]
    [] 0 0.











(** A generator that never repeats itself: the [n]-th id is [n] strokes
    before a hash sign. *)
Fixpoint tally_uuid (n : nat) : string :=
  match n with
  | O => "#"
  | S k => String "i" (tally_uuid k)
  end.

(** A document from before profile lists: one smms setting, as its type
    declares it, without an [_id]. *)
Definition legacy_without_id : store :=
  mkStore
    [("picBed", VObj [("smms", VObj [("token", VStr "abc")])])]
    [] 0 0.

(** The visibility preferences [getPicBeds] works with: the stored
    picBed.list, or the empty list in its place when that is falsy; and
    the stored values it can work with (a list whose entries are not null,
    or nothing). *)
Definition pref_list (v : value) : list value :=
  match v with VArr l => l | _ => [] end.

Definition pref_ok (v : value) : bool :=
  match v with
  | VArr l => forallb not_nullish l
  | _ => negb (truthy v)
  end.

(** The profile a creating call builds for [config] when the generator
    has been asked [u] times and the clock [c] times, and the profiles a
    run of creating calls builds one after the other. *)
Definition created_profile (newUuid : nat -> string) (dateNow : nat -> Z)
    (trimValues : value -> obj) (config : value) (u c : nat) : value :=
  VObj (assign (assign [("_configName", VStr "Default")] (trimValues config))
               [("_id", VStr (newUuid u));
                ("_createdAt", VNum (dateNow c));
                ("_updatedAt", VNum (dateNow (S c)))]).

Fixpoint created_profiles (newUuid : nat -> string) (dateNow : nat -> Z)
    (trimValues : value -> obj) (calls : list (value * value)) (u c : nat)
  : list value :=
  match calls with
  | [] => []
  | (_, config) :: r =>
      created_profile newUuid dateNow trimValues config u c
      :: created_profiles newUuid dateNow trimValues r (S u) (S (S c))
  end.

(** * Properties *)

(** ** Field lists *)

Lemma lookup_put_same (k : string) (v : value) (o : obj) :
  lookup k (put k v o) = Some v.
Proof.
  induction o as [|[k' v'] r IH]; simpl.
  - now rewrite String.eqb_refl.
  - destruct (String.eqb k k') eqn:E; simpl; rewrite E; auto.
Qed.

Lemma lookup_put_other (k k' : string) (v : value) (o : obj) :
  String.eqb k' k = false -> lookup k' (put k v o) = lookup k' o.
Proof.
  intros Hne. induction o as [|[k0 v0] r IH]; simpl.
  - now rewrite Hne.
  - destruct (String.eqb k k0) eqn:E; simpl.
    + apply String.eqb_eq in E; subst k0. now rewrite Hne.
    + now rewrite IH.
Qed.

Lemma get_prop_put_same (k : string) (v : value) (o : obj) :
  get_prop (VObj (put k v o)) k = v.
Proof. simpl. now rewrite lookup_put_same. Qed.

Lemma get_prop_put_other (k k' : string) (v : value) (o : obj) :
  String.eqb k' k = false ->
  get_prop (VObj (put k v o)) k' = get_prop (VObj o) k'.
Proof. intros H. simpl. now rewrite lookup_put_other. Qed.

(** ** Paths *)

Lemma stringToPath_nonempty (s : string) : stringToPath s <> [].
Proof.
  destruct s as [|c r]; simpl; [discriminate|].
  destruct (Ascii.eqb c "."); [discriminate|].
  destruct (stringToPath r); discriminate.
Qed.

Lemma stringToPath_app (a b : string) :
  stringToPath (a ++ "." ++ b) = (stringToPath a ++ stringToPath b)%list.
Proof.
  change (a ++ "." ++ b) with (a ++ String "." b).
  induction a as [|c a IH]; [reflexivity|].
  cbn [String.append stringToPath].
  rewrite IH. destruct (Ascii.eqb c "."); [reflexivity|].
  pose proof (stringToPath_nonempty a) as Hne.
  destruct (stringToPath a); [congruence | reflexivity].
Qed.

Lemma baseGet_undef (p : list string) : baseGet VUndef p = VUndef.
Proof. destruct p; reflexivity. Qed.

Lemma baseGet_app (v : value) (p q : list string) :
  baseGet v (p ++ q) = baseGet (baseGet v p) q.
Proof.
  revert v. induction p as [|k r IH]; intros v; simpl; [reflexivity|].
  destruct v; try apply IH; now rewrite baseGet_undef.
Qed.

Lemma baseGet_not_obj (v : value) (k : string) (r : list string) :
  is_obj v = false -> baseGet v (k :: r) = VUndef.
Proof.
  destruct v; simpl; intros H; try discriminate;
    try reflexivity; apply baseGet_undef.
Qed.

Lemma baseSet_cons (o : obj) (k k' : string) (r : list string) (v : value) :
  baseSet o (k :: k' :: r) v
  = put k (VObj (baseSet (nested_at k o) (k' :: r) v)) o.
Proof. reflexivity. Qed.

Lemma baseGet_nested (o : obj) (k k' : string) (r : list string) :
  baseGet (VObj o) (k :: k' :: r) = baseGet (VObj (nested_at k o)) (k' :: r).
Proof.
  unfold nested_at.
  change (baseGet (VObj o) (k :: k' :: r))
    with (baseGet (get_prop (VObj o) k) (k' :: r)).
  simpl get_prop. destruct (lookup k o) as [x|].
  - destruct x; try reflexivity; cbn; now rewrite ?baseGet_undef.
  - cbn. now rewrite baseGet_undef.
Qed.

(** Reading back the path just written. *)
Lemma baseGet_baseSet_same (p : list string) (o : obj) (v : value) :
  p <> [] -> baseGet (VObj (baseSet o p v)) p = v.
Proof.
  revert o. induction p as [|k r IH]; intros o Hp; [congruence|].
  destruct r as [|k' r'].
  - simpl baseSet.
    change (baseGet (VObj (put k v o)) [k])
      with (get_prop (VObj (put k v o)) k).
    apply get_prop_put_same.
  - rewrite baseSet_cons.
    change (baseGet (VObj ?x) (k :: k' :: r'))
      with (baseGet (get_prop (VObj x) k) (k' :: r')).
    rewrite get_prop_put_same. apply IH. discriminate.
Qed.

(** A write leaves alone every path that leaves the written one at some
    key. *)
Lemma baseGet_baseSet_diverge (q : list string) :
  forall (o : obj) (k k' : string) (r r' : list string) (v : value),
    String.eqb k' k = false ->
    baseGet (VObj (baseSet o (q ++ k :: r) v)) (q ++ k' :: r')
    = baseGet (VObj o) (q ++ k' :: r').
Proof.
  induction q as [|a q IH]; intros o k k' r r' v Hne.
  - simpl app.
    change (baseGet (VObj ?x) (k' :: r'))
      with (baseGet (get_prop (VObj x) k') r').
    destruct r as [|k2 r2].
    + simpl baseSet. now rewrite get_prop_put_other.
    + rewrite baseSet_cons. now rewrite get_prop_put_other.
  - simpl app.
    destruct (q ++ k :: r)%list as [|b t] eqn:E1;
      [destruct q; discriminate|].
    destruct (q ++ k' :: r')%list as [|b' t'] eqn:E2;
      [destruct q; discriminate|].
    rewrite baseSet_cons.
    change (baseGet (VObj ?x) (a :: b' :: t'))
      with (baseGet (get_prop (VObj x) a) (b' :: t')) at 1.
    rewrite get_prop_put_same, baseGet_nested.
    rewrite <- E1, <- E2. now apply IH.
Qed.

(** ** [savePicgoConfig] *)

Lemma lookup_NoDup (c : obj) (kv : string * value) :
  NoDup (map fst c) -> In kv c -> lookup (fst kv) c = Some (snd kv).
Proof.
  induction c as [|[k v] r IH]; intros Hnd Hin; [contradiction|].
  inversion Hnd as [|? ? Hnotin Hnd']; subst.
  destruct Hin as [<-|Hin]; simpl.
  - now rewrite String.eqb_refl.
  - destruct (String.eqb (fst kv) k) eqn:E.
    + apply String.eqb_eq in E. subst k.
      exfalso. apply Hnotin. now apply in_map.
    + now apply IH.
Qed.

Lemma forEach_save_key (c : obj) (l : list (string * value)) :
  (forall kv, In kv l -> lookup (fst kv) c = Some (snd kv)) ->
  forall s,
    forEach (save_key c) (map fst l) s
    = Ret tt (mkStore (fold_left apply_entry l (reactiveCfg s))
                      (emitted s ++ map change_event l)
                      (uuidCalls s) (clockCalls s)).
Proof.
  induction l as [|kv r IH]; intros Hl s.
  - cbn. rewrite app_nil_r. now destruct s.
  - cbn [map forEach]. unfold bind at 1.
    unfold save_key at 1. rewrite (Hl kv (or_introl eq_refl)).
    cbn. rewrite IH by (intros; apply Hl; now right).
    cbn. now rewrite <- app_assoc.
Qed.

Lemma savePicgoConfig_run (c : obj) (s : store) :
  NoDup (map fst c) ->
  savePicgoConfig (Some c) s
  = Ret tt (mkStore (fold_left apply_entry c (reactiveCfg s))
                    (emitted s ++ map change_event c)
                    (uuidCalls s) (clockCalls s)).
Proof.
  intros Hnd. apply forEach_save_key.
  intros kv Hin. now apply lookup_NoDup.
Qed.

Lemma lodash_get_set_same (o : obj) (path : string) (v dflt : value) :
  lodash_get (lodash_set o path v) path dflt
  = match v with VUndef => dflt | _ => v end.
Proof.
  unfold lodash_get, lodash_set.
  rewrite baseGet_baseSet_same by apply stringToPath_nonempty.
  now destruct v.
Qed.











(** ** Construction *)

(** C9. Constructing the helper without a context, or with a context but
    without a reactive configuration object, raises at once and yields no
    helper; with both present the helper is constructed over them. *)
Theorem constructor_requires_ctx_and_config :
  (forall cfg, constructor None cfg = Raised "PicGo ctx cannot be null")
  /\ (forall c,
         constructor (Some c) None
         = Raised "PicGo reactive config cannot be null")
  /\ (forall c r,
         exists h, constructor (Some c) (Some r) = Constructed h
                   /\ helper_ctx h = c /\ helper_reactiveCfg h = r).
Proof.
  split; [|split].
  - reflexivity.
  - reflexivity.
  - intros c r. eexists. repeat split.
Qed.

(** ** [getUploaderConfigList] on an empty type *)

(** C10. With the empty type string, [getUploaderConfigList] returns an
    empty list and an empty default id whatever the document holds, and
    the store comes back as it was: nothing written, no migration run (no
    id or clock reading consumed), no event emitted. *)
Theorem getUploaderConfigList_empty_type
    (newUuid : nat -> string) (dateNow : nat -> Z)
    (trimValues : value -> obj) (s : store) :
  getUploaderConfigList newUuid dateNow trimValues EmptyString s
  = Ret (mkItem (VArr []) (VStr EmptyString)) s.
Proof. reflexivity. Qed.

(** ** Visible backend types *)

(** C6. Whenever [getPicBeds] returns, [getVisiablePicBeds] returns a list
    that is not empty: the visible entries of the full list, in its order,
    or, when none is visible, the single fallback entry of type smms and
    name SM.MS.  The store is the one [getPicBeds] left. *)
Theorem getVisiablePicBeds_never_empty
    (array_sort : (IPicBedType -> IPicBedType -> Z) ->
                  list IPicBedType -> list IPicBedType)
    (ctx : IPicGo) (s s' : store) (picBeds : list IPicBedType) :
  getPicBeds array_sort ctx s = Ret picBeds s' ->
  exists visiable,
    getVisiablePicBeds array_sort ctx s = Ret visiable s'
    /\ visiable <> []
    /\ (filter is_visible picBeds <> [] ->
        visiable = filter is_visible picBeds)
    /\ (filter is_visible picBeds = [] ->
        visiable = [mkBed "smms" (VStr "SM.MS") VUndef]).
Proof.
  intros Hbeds. unfold getVisiablePicBeds, bind. rewrite Hbeds.
  fold is_visible. unfold ret.
  destruct (filter is_visible picBeds) as [|b r] eqn:E; cbn.
  - eexists. split; [reflexivity|].
    split; [discriminate|]. split; [congruence | reflexivity].
  - eexists. split; [reflexivity|].
    split; [discriminate|]. split; [reflexivity | discriminate].
Qed.

Lemma getVisiablePicBeds_never_empty_witness :
  exists visiable,
    getVisiablePicBeds sample_sort sample_ctx all_hidden
    = Ret visiable all_hidden
    /\ visiable <> []
    /\ (filter is_visible
          [mkBed "github" (VStr "GitHub") (VBool false);
           mkBed "smms" (VStr "SM.MS") (VBool false);
           mkBed "imgur" (VStr "imgur") (VBool false)] <> [] ->
        visiable = filter is_visible
          [mkBed "github" (VStr "GitHub") (VBool false);
           mkBed "smms" (VStr "SM.MS") (VBool false);
           mkBed "imgur" (VStr "imgur") (VBool false)])
    /\ (filter is_visible
          [mkBed "github" (VStr "GitHub") (VBool false);
           mkBed "smms" (VStr "SM.MS") (VBool false);
           mkBed "imgur" (VStr "imgur") (VBool false)] = [] ->
        visiable = [mkBed "smms" (VStr "SM.MS") VUndef]).
Proof.
  apply (getVisiablePicBeds_never_empty sample_sort sample_ctx
           all_hidden all_hidden).
  reflexivity.
Defined.

(** ** The default id under update and delete *)

(** C1. The invariant holds of the two-profile document, whose default is
    profile a.  Updating profile a in place stores undefined as the default
    id, and deleting profile a leaves the default id pointing at the entry
    that is gone: after either call no entry of the list has the default
    id, where the claim has exactly one. *)
Theorem defaultId_invariant_lost_by_merge_and_delete :
  default_consistent two_profiles "github" = true
  /\ (exists s',
         updateUploaderConfig sample_uuid sample_clock sample_trim
           "github" (VStr "a") (VObj [("token", VStr "t3")]) two_profiles
         = Ret tt s'
         /\ stored s' "uploader.github.defaultId" = VUndef
         /\ configList_length s' "github" = 2
         /\ default_consistent s' "github" = false)
  /\ (exists r s',
         deleteUploaderConfig sample_uuid sample_clock sample_trim
           "github" (VStr "a") two_profiles
         = Ret (Some r) s'
         /\ stored s' "uploader.github.defaultId" = VStr "a"
         /\ stored s' "uploader.github.configList"
            = VArr [VObj [("_id", VStr "b"); ("token", VStr "t2")]]
         /\ default_consistent s' "github" = false).
Proof.
  split; [reflexivity|]. split.
  - eexists. split; [lazy; reflexivity|]. repeat split.
  - do 2 eexists. split; [lazy; reflexivity|]. repeat split.
Qed.

(** C2. Deleting the default profile a from the two-profile document
    removes it, but the stored default id stays a, the active github
    configuration stays profile a, and the default id handed back is
    undefined; the claim has the remaining profile b as new default and as
    active configuration. *)
Theorem deleteUploaderConfig_default_not_reassigned :
  stored two_profiles "uploader.github.defaultId" = VStr "a"
  /\ exists s',
      deleteUploaderConfig sample_uuid sample_clock sample_trim
        "github" (VStr "a") two_profiles
      = Ret (Some (mkItem
                     (VArr [VObj [("_id", VStr "b"); ("token", VStr "t2")]])
                     VUndef)) s'
      /\ stored s' "uploader.github.configList"
         = VArr [VObj [("_id", VStr "b"); ("token", VStr "t2")]]
      /\ stored s' "uploader.github.defaultId" = VStr "a"
      /\ stored s' "picBed.github"
         = VObj [("_id", VStr "a"); ("token", VStr "t1")]
      /\ emitted s'
         = [CONFIG_CHANGE "uploader.github.configList"
              (VArr [VObj [("_id", VStr "b"); ("token", VStr "t2")]])].
Proof.
  split; [reflexivity|]. eexists.
  split; [lazy; reflexivity|]. repeat split.
Qed.

(** ** Paths of the per-type settings *)

Lemma stored_baseGet (s : store) (path : string) :
  stored s path = baseGet (VObj (reactiveCfg s)) (stringToPath path).
Proof.
  unfold stored, lodash_get.
  now destruct (baseGet (VObj (reactiveCfg s)) (stringToPath path)).
Qed.

Lemma path_uploader (type : string) :
  stringToPath ("uploader." ++ type) = "uploader" :: stringToPath type.
Proof.
  change ("uploader." ++ type) with ("uploader" ++ "." ++ type).
  now rewrite stringToPath_app.
Qed.

Lemma path_picBed (type : string) :
  stringToPath ("picBed." ++ type) = "picBed" :: stringToPath type.
Proof.
  change ("picBed." ++ type) with ("picBed" ++ "." ++ type).
  now rewrite stringToPath_app.
Qed.

Lemma path_uploader_field (type field : string) :
  stringToPath ("uploader." ++ type ++ "." ++ field)
  = (("uploader" :: stringToPath type) ++ stringToPath field)%list.
Proof.
  change ("uploader." ++ type ++ "." ++ field)
    with ("uploader" ++ "." ++ (type ++ "." ++ field)).
  now rewrite !stringToPath_app.
Qed.

Lemma baseGet_baseSet_root (o : obj) (k k' : string) (r r' : list string)
    (v : value) :
  String.eqb k' k = false ->
  baseGet (VObj (baseSet o (k :: r) v)) (k' :: r')
  = baseGet (VObj o) (k' :: r').
Proof. intros H. now apply (baseGet_baseSet_diverge []). Qed.

Lemma baseGet_baseSet_sibling (q : list string) (o : obj) (k k' : string)
    (v : value) :
  String.eqb k' k = false ->
  baseGet (VObj (baseSet o (q ++ [k]) v)) (q ++ [k'])
  = baseGet (VObj o) (q ++ [k']).
Proof. intros H. now apply baseGet_baseSet_diverge. Qed.

(** The field of an object reached through a path. *)
Lemma baseGet_field (v : value) (q : list string) (k : string) :
  baseGet v (q ++ [k])
  = match baseGet v q with
    | VUndef | VNull => VUndef
    | x => get_prop x k
    end.
Proof. rewrite baseGet_app. now destruct (baseGet v q). Qed.

(** ** Reading a stored profile list *)

Section Reads.

Variable newUuid : nat -> string.
Variable dateNow : nat -> Z.
Variable trimValues : value -> obj.

(** When a list is stored for the type, [getUploaderConfigList] hands it
    out and touches nothing. *)
Lemma getUploaderConfigList_stored (type : string) (s : store) :
  type <> EmptyString ->
  truthy (stored s ("uploader." ++ type ++ ".configList")) = true ->
  getUploaderConfigList newUuid dateNow trimValues type s
  = Ret (mkItem (stored s ("uploader." ++ type ++ ".configList"))
                (if truthy (stored s ("uploader." ++ type ++ ".defaultId"))
                 then stored s ("uploader." ++ type ++ ".defaultId")
                 else VStr EmptyString)) s.
Proof.
  intros Hty Hcl. unfold getUploaderConfigList.
  apply String.eqb_neq in Hty. rewrite Hty.
  unfold getPicgoConfig, bind, read_cfg, ret, lodash_get.
  rewrite !stored_baseGet in *.
  change (type ++ ".configList") with (type ++ "." ++ "configList") in *.
  change (type ++ ".defaultId") with (type ++ "." ++ "defaultId").
  rewrite !path_uploader_field in *. rewrite path_uploader.
  change (stringToPath "configList") with ["configList"] in *.
  change (stringToPath "defaultId") with ["defaultId"].
  rewrite !baseGet_field in *.
  destruct (baseGet (VObj (reactiveCfg s)) ("uploader" :: stringToPath type))
    as [| | | | | |f]; simpl in Hcl; try discriminate.
  cbn [get_prop] in *. now rewrite Hcl.
Qed.

Lemma find_by_id_no_match (id : value) (cl : list value) :
  id_absent id cl -> find_by_id id cl = Some VUndef.
Proof.
  induction 1 as [|x r Hx _ IH]; simpl; [reflexivity|].
  now rewrite Hx.
Qed.

End Reads.

(** ** [selectUploaderConfig] with an unknown id *)

(** C8, as the code has it.  For a type whose profile list is stored, and
    an id that is the [_id] of none of its entries, [selectUploaderConfig]
    returns undefined and the store is untouched: the document (so the
    default id and the active configuration of the type) is the same and
    no event is emitted. *)
Theorem selectUploaderConfig_unknown_id_stored_list
    (newUuid : nat -> string) (dateNow : nat -> Z)
    (trimValues : value -> obj)
    (type : string) (id : value) (s : store) (cl : list value) :
  type <> EmptyString ->
  stored s ("uploader." ++ type ++ ".configList") = VArr cl ->
  id_absent id cl ->
  selectUploaderConfig newUuid dateNow trimValues type id s = Ret VUndef s.
Proof.
  intros Hty Hcl Hno. unfold selectUploaderConfig, bind.
  rewrite getUploaderConfigList_stored by (rewrite ?Hcl; auto).
  rewrite Hcl. cbn [configList find_in lift_option].
  rewrite (find_by_id_no_match _ _ Hno). reflexivity.
Qed.

Lemma selectUploaderConfig_unknown_id_stored_list_witness :
  "github" <> EmptyString
  /\ stored two_profiles ("uploader." ++ "github" ++ ".configList")
     = VArr [VObj [("_id", VStr "a"); ("token", VStr "t1")];
             VObj [("_id", VStr "b"); ("token", VStr "t2")]]
  /\ id_absent (VStr "zz")
               [VObj [("_id", VStr "a"); ("token", VStr "t1")];
                VObj [("_id", VStr "b"); ("token", VStr "t2")]]
  /\ selectUploaderConfig sample_uuid sample_clock sample_trim
       "github" (VStr "zz") two_profiles
     = Ret VUndef two_profiles.
Proof.
  assert (H1 : "github" <> EmptyString) by discriminate.
  assert (H3 : id_absent (VStr "zz")
                 [VObj [("_id", VStr "a"); ("token", VStr "t1")];
                  VObj [("_id", VStr "b"); ("token", VStr "t2")]])
    by (repeat constructor).
  split; [exact H1|]. split; [reflexivity|]. split; [exact H3|].
  exact (selectUploaderConfig_unknown_id_stored_list
           sample_uuid sample_clock sample_trim
           "github" (VStr "zz") two_profiles _ H1 eq_refl H3).
Defined.

(** C8 as stated fails where no profile list is stored yet: the read that
    [selectUploaderConfig] starts with migrates the type first.  On the
    empty document no entry has the id asked for and undefined comes back,
    but the default id and the active configuration of the type are
    written and two events are emitted. *)
Lemma selectUploaderConfig_unknown_id_migrates :
  exists s',
    selectUploaderConfig sample_uuid sample_clock sample_trim
      "github" (VStr "zz") empty_store
    = Ret VUndef s'
    /\ stored empty_store "uploader.github.configList" = VUndef
    /\ stored empty_store "uploader.github.defaultId" = VUndef
    /\ stored s' "uploader.github.defaultId" = VStr "id-0"
    /\ stored empty_store "picBed.github" = VUndef
    /\ stored s' "picBed.github"
       = VObj [("_configName", VStr "Default"); ("_id", VStr "id-0");
               ("_createdAt", VNum 1700000000000);
               ("_updatedAt", VNum 1700000000001)]
    /\ List.length (emitted s') = 2.
Proof.
  eexists. split; [lazy; reflexivity|]. repeat split.
Qed.

(** ** The three writes that end an update *)

Lemma append_inj_l (a b c : string) : a ++ b = a ++ c -> b = c.
Proof.
  induction a as [|x a IH]; simpl; intros H; [exact H|].
  injection H as H. now apply IH.
Qed.

Lemma profile_keys_NoDup (type : string) (v1 v2 v3 : value) :
  NoDup (map fst [("uploader." ++ type ++ ".configList", v1);
                  ("uploader." ++ type ++ ".defaultId", v2);
                  ("picBed." ++ type, v3)]).
Proof.
  cbn [map fst]. repeat constructor; simpl.
  - intros [H|[H|[]]]; [|discriminate H].
    injection H as H. apply append_inj_l in H. discriminate H.
  - intros [H|[]]. discriminate H.
  - intros [].
Qed.

Lemma profile_paths_read (o : obj) (tp : list string) (v1 v2 v3 : value) :
  let P1 := "uploader" :: (tp ++ ["configList"])%list in
  let P2 := "uploader" :: (tp ++ ["defaultId"])%list in
  let P3 := "picBed" :: tp in
  let o3 := baseSet (baseSet (baseSet o P1 v1) P2 v2) P3 v3 in
  baseGet (VObj o3) P1 = v1
  /\ baseGet (VObj o3) P2 = v2
  /\ baseGet (VObj o3) P3 = v3.
Proof.
  intros P1 P2 P3 o3. subst o3. repeat split.
  - transitivity (baseGet (VObj (baseSet (baseSet o P1 v1) P2 v2)) P1).
    { now apply baseGet_baseSet_root. }
    transitivity (baseGet (VObj (baseSet o P1 v1)) P1).
    { exact (baseGet_baseSet_sibling ("uploader" :: tp) _
               "defaultId" "configList" v2 eq_refl). }
    apply baseGet_baseSet_same. discriminate.
  - transitivity (baseGet (VObj (baseSet (baseSet o P1 v1) P2 v2)) P2).
    { now apply baseGet_baseSet_root. }
    apply baseGet_baseSet_same. discriminate.
  - apply baseGet_baseSet_same. discriminate.
Qed.

(** The patch that ends [updateUploaderConfig]: afterwards the three paths
    hold the three values, and three events were emitted. *)
Lemma save_profile_patch (type : string) (v1 v2 v3 : value) (s : store) :
  exists s',
    savePicgoConfig (Some [("uploader." ++ type ++ ".configList", v1);
                           ("uploader." ++ type ++ ".defaultId", v2);
                           ("picBed." ++ type, v3)]) s
    = Ret tt s'
    /\ baseGet (VObj (reactiveCfg s'))
               (stringToPath ("uploader." ++ type ++ ".configList")) = v1
    /\ baseGet (VObj (reactiveCfg s'))
               (stringToPath ("uploader." ++ type ++ ".defaultId")) = v2
    /\ baseGet (VObj (reactiveCfg s')) (stringToPath ("picBed." ++ type)) = v3
    /\ emitted s'
       = (emitted s
          ++ [CONFIG_CHANGE ("uploader." ++ type ++ ".configList") v1;
              CONFIG_CHANGE ("uploader." ++ type ++ ".defaultId") v2;
              CONFIG_CHANGE ("picBed." ++ type) v3])%list
    /\ uuidCalls s' = uuidCalls s
    /\ clockCalls s' = clockCalls s.
Proof.
  rewrite savePicgoConfig_run by apply profile_keys_NoDup.
  eexists. split; [reflexivity|].
  cbn [reactiveCfg emitted uuidCalls clockCalls fold_left map].
  unfold apply_entry, change_event, lodash_set. cbn [fst snd].
  change (type ++ ".configList") with (type ++ "." ++ "configList").
  change (type ++ ".defaultId") with (type ++ "." ++ "defaultId").
  rewrite !path_uploader_field, path_picBed.
  change (stringToPath "configList") with ["configList"].
  change (stringToPath "defaultId") with ["defaultId"].
  cbn [app].
  destruct (profile_paths_read (reactiveCfg s) (stringToPath type) v1 v2 v3)
    as (H1 & H2 & H3).
  repeat split; assumption.
Qed.

(** ** [updateUploaderConfig] with a new id *)

Lemma meta_fields (t : obj) (a b c : value) :
  let p := VObj (assign t [("_id", a); ("_createdAt", b); ("_updatedAt", c)]) in
  get_prop p "_id" = a
  /\ get_prop p "_createdAt" = b
  /\ get_prop p "_updatedAt" = c.
Proof.
  cbn [assign fold_left fst snd]. repeat split.
  - rewrite !get_prop_put_other by reflexivity. apply get_prop_put_same.
  - rewrite get_prop_put_other by reflexivity. apply get_prop_put_same.
  - apply get_prop_put_same.
Qed.

(** One call with an id that no stored entry has: the new profile, where
    it goes, and what the generator and the clock were asked. *)
Lemma updateUploaderConfig_create_step
    (newUuid : nat -> string) (dateNow : nat -> Z)
    (trimValues : value -> obj)
    (type : string) (id config : value) (s : store) (cl : list value) :
  type <> EmptyString ->
  stored s ("uploader." ++ type ++ ".configList") = VArr cl ->
  id_absent id cl ->
  exists s' profile,
    updateUploaderConfig newUuid dateNow trimValues type id config s
    = Ret tt s'
    /\ profile
       = VObj (assign
                 (assign [("_configName", VStr "Default")] (trimValues config))
                 [("_id", VStr (newUuid (uuidCalls s)));
                  ("_createdAt", VNum (dateNow (clockCalls s)));
                  ("_updatedAt", VNum (dateNow (S (clockCalls s))))])
    /\ get_prop profile "_id" = VStr (newUuid (uuidCalls s))
    /\ get_prop profile "_createdAt" = VNum (dateNow (clockCalls s))
    /\ get_prop profile "_updatedAt" = VNum (dateNow (S (clockCalls s)))
    /\ stored s' ("uploader." ++ type ++ ".configList")
       = VArr (cl ++ [profile])
    /\ configList_length s' type = S (configList_length s type)
    /\ stored s' ("uploader." ++ type ++ ".defaultId")
       = VStr (newUuid (uuidCalls s))
    /\ stored s' ("picBed." ++ type) = profile
    /\ uuidCalls s' = S (uuidCalls s).
Proof.
  intros Hty Hcl Hno.
  set (base := assign [("_configName", VStr "Default")] (trimValues config)).
  set (a := VStr (newUuid (uuidCalls s))).
  set (b := VNum (dateNow (clockCalls s))).
  set (c := VNum (dateNow (S (clockCalls s)))).
  destruct (meta_fields base a b c) as (Ha & Hb & Hc).
  set (profile := VObj (assign base
                          [("_id", a); ("_createdAt", b); ("_updatedAt", c)]))
    in *.
  set (s1 := mkStore (reactiveCfg s) (emitted s)
                     (S (uuidCalls s)) (S (S (clockCalls s)))).
  destruct (save_profile_patch type (VArr (cl ++ [profile])) a profile s1)
    as (s' & Hrun & H1 & H2 & H3 & _ & Hu & _).
  exists s', profile.
  split.
  { unfold updateUploaderConfig, bind.
    rewrite getUploaderConfigList_stored by (rewrite ?Hcl; auto).
    rewrite Hcl. cbn [configList lift_option].
    rewrite (find_by_id_no_match _ _ Hno).
    cbn [lift_option ret truthy].
    unfold completeUploaderMetaConfig, bind, IdUtil_newUuid, Date_now, ret.
    cbn [reactiveCfg emitted uuidCalls clockCalls].
    fold base a b c profile s1. rewrite Ha. exact Hrun. }
  split; [reflexivity|].
  split; [exact Ha|]. split; [exact Hb|]. split; [exact Hc|].
  assert (Hlist : stored s' ("uploader." ++ type ++ ".configList")
                  = VArr (cl ++ [profile]))
    by (rewrite stored_baseGet; exact H1).
  split; [exact Hlist|].
  split.
  { unfold configList_length. rewrite Hlist, Hcl.
    rewrite length_app. simpl. lia. }
  split; [rewrite stored_baseGet; exact H2|].
  split; [rewrite stored_baseGet; exact H3|].
  exact Hu.
Qed.

Lemma count_id_absent (id : value) (cl : list value) :
  id_absent id cl -> count_id id cl = 0.
Proof.
  unfold count_id. induction 1 as [|x r Hx _ IH]; cbn [filter];
    [reflexivity|].
  assert (E : strict_eq (get_prop x "_id") id = false).
  { unfold id_is in Hx. destruct x; try discriminate; now injection Hx. }
  now rewrite E.
Qed.

Lemma count_id_app (id : value) (a b : list value) :
  count_id id (a ++ b) = count_id id a + count_id id b.
Proof. unfold count_id. now rewrite filter_app, length_app. Qed.

Lemma updateUploaderConfig_create_clock
    (newUuid : nat -> string) (dateNow : nat -> Z)
    (trimValues : value -> obj)
    (type : string) (id config : value) (s : store) (cl : list value) :
  type <> EmptyString ->
  stored s ("uploader." ++ type ++ ".configList") = VArr cl ->
  id_absent id cl ->
  exists s',
    updateUploaderConfig newUuid dateNow trimValues type id config s
    = Ret tt s'
    /\ clockCalls s' = S (S (clockCalls s)).
Proof.
  intros Hty Hcl Hno.
  set (base := assign [("_configName", VStr "Default")] (trimValues config)).
  set (a := VStr (newUuid (uuidCalls s))).
  set (b := VNum (dateNow (clockCalls s))).
  set (c := VNum (dateNow (S (clockCalls s)))).
  destruct (meta_fields base a b c) as (Ha & _).
  set (profile := VObj (assign base
                          [("_id", a); ("_createdAt", b); ("_updatedAt", c)]))
    in *.
  set (s1 := mkStore (reactiveCfg s) (emitted s)
                     (S (uuidCalls s)) (S (S (clockCalls s)))).
  destruct (save_profile_patch type (VArr (cl ++ [profile])) a profile s1)
    as (s' & Hrun & _ & _ & _ & _ & _ & Hc).
  exists s'. split; [|exact Hc].
  unfold updateUploaderConfig, bind.
  rewrite getUploaderConfigList_stored by (rewrite ?Hcl; auto).
  rewrite Hcl. cbn [configList lift_option].
  rewrite (find_by_id_no_match _ _ Hno).
  cbn [lift_option ret truthy].
  unfold completeUploaderMetaConfig, bind, IdUtil_newUuid, Date_now, ret.
  cbn [reactiveCfg emitted uuidCalls clockCalls].
  fold base a b c profile s1. rewrite Ha. exact Hrun.
Qed.

Lemma created_profiles_ids
    (newUuid : nat -> string) (dateNow : nat -> Z)
    (trimValues : value -> obj) (calls : list (value * value)) :
  forall u c,
    map (fun p => get_prop p "_id")
        (created_profiles newUuid dateNow trimValues calls u c)
    = map (fun i => VStr (newUuid (u + i))) (seq 0 (List.length calls)).
Proof.
  induction calls as [|[id config] r IH]; intros u c; [reflexivity|].
  cbn [created_profiles List.length seq map]. f_equal.
  - rewrite Nat.add_0_r. unfold created_profile.
    apply (meta_fields _ (VStr (newUuid u)) (VNum (dateNow c))
                       (VNum (dateNow (S c)))).
  - rewrite IH, <- seq_shift, map_map.
    apply map_ext. intros i. do 2 f_equal. lia.
Qed.

(** A run of calls with ids no entry has: the profiles come one after the
    other behind the stored list, each built for its call from the next id
    and the next two clock readings; the default id is the id drawn last
    and the active configuration the profile appended last. *)
Lemma update_all_appends_profiles
    (newUuid : nat -> string) (dateNow : nat -> Z)
    (trimValues : value -> obj) (type : string)
    (calls : list (value * value)) :
  type <> EmptyString ->
  (forall n call, In call calls ->
                  strict_eq (VStr (newUuid n)) (fst call) = false) ->
  forall (s : store) (cl : list value),
    stored s ("uploader." ++ type ++ ".configList") = VArr cl ->
    Forall (fun call => id_absent (fst call) cl) calls ->
    exists s',
      update_all newUuid dateNow trimValues type calls s = Ret tt s'
      /\ stored s' ("uploader." ++ type ++ ".configList")
         = VArr (cl ++ created_profiles newUuid dateNow trimValues calls
                         (uuidCalls s) (clockCalls s))
      /\ uuidCalls s' = uuidCalls s + List.length calls
      /\ clockCalls s' = clockCalls s + 2 * List.length calls
      /\ (calls <> [] ->
          stored s' ("uploader." ++ type ++ ".defaultId")
          = VStr (newUuid (pred (uuidCalls s')))
          /\ stored s' ("picBed." ++ type)
             = last (created_profiles newUuid dateNow trimValues calls
                       (uuidCalls s) (clockCalls s)) VUndef).
Proof.
  intros Hty Hgen. induction calls as [|[id config] r IH]; intros s cl Hcl Hno.
  - exists s. cbn [update_all List.length created_profiles].
    rewrite app_nil_r. repeat split; auto; try lia; congruence.
  - inversion Hno as [|? ? Hid Hrest]; subst.
    destruct (updateUploaderConfig_create_step newUuid dateNow trimValues
                type id config s cl Hty Hcl Hid)
      as (s1 & profile & Hrun & Hprof & Hpid & _ & _ & Hl1 & _ & Hd1 & Hp1
          & Hu1).
    assert (Hc1 : clockCalls s1 = S (S (clockCalls s))).
    { destruct (updateUploaderConfig_create_clock newUuid dateNow trimValues
                  type id config s cl Hty Hcl Hid) as (s2 & Hrun2 & Hc2).
      rewrite Hrun in Hrun2. now injection Hrun2 as ->. }
    fold (created_profile newUuid dateNow trimValues config
            (uuidCalls s) (clockCalls s)) in Hprof.
    assert (Hno1 : Forall (fun call => id_absent (fst call) (cl ++ [profile]))
                          r).
    { apply Forall_forall. intros call Hin.
      apply Forall_app. split.
      - exact (proj1 (Forall_forall _ _) Hrest call Hin).
      - constructor; [|constructor].
        assert (Hobj : exists f, profile = VObj f)
          by (rewrite Hprof; unfold created_profile; eauto).
        destruct Hobj as [f Hf]. rewrite Hf. unfold id_is.
        rewrite <- Hf, Hpid. f_equal. apply Hgen. now right. }
    destruct (IH (fun n call Hin => Hgen n call (or_intror Hin))
                 s1 (cl ++ [profile])%list Hl1 Hno1)
      as (s' & Hrun' & Hl' & Hu' & Hc' & Hd').
    rewrite Hu1, Hc1 in Hl', Hd'.
    exists s'. split.
    { cbn [update_all]. unfold bind. rewrite Hrun. exact Hrun'. }
    cbn [created_profiles]. rewrite <- Hprof.
    split; [rewrite Hl', <- app_assoc; reflexivity|].
    split; [rewrite Hu', Hu1; simpl; lia|].
    split; [rewrite Hc', Hc1; simpl; lia|].
    intros _. destruct r as [|c r'].
    + cbn [update_all] in Hrun'. injection Hrun' as <-.
      cbn [created_profiles last]. rewrite Hd1, Hu1, Hp1. split; reflexivity.
    + destruct (Hd' ltac:(discriminate)) as [Hdd Hpp].
      split; [exact Hdd|]. rewrite Hpp.
      destruct c as [id' config']. reflexivity.
Qed.

(** C3, as the code has it.  For a type whose profile list is stored, a
    call of [updateUploaderConfig] with an id that is the [_id] of none of
    its entries creates one profile: the defaults and the trimmed fields,
    then the next id of the generator as [_id] and two clock readings as
    [_createdAt] and [_updatedAt].  The profile is appended to the list,
    which grows by exactly one; its id becomes the default id; the profile
    becomes the active configuration of the type.  When the id handed out
    is new to the list, the new profile is the only entry that has it.
    Over a run of such calls, with a generator that never repeats an id
    and hands out none that is in the list, and with no call asking for an
    id the generator hands out, the profiles are appended one after the
    other, each built for its call from the id drawn for it and the two
    clock readings taken for it; these ids differ from one another and
    from every id in the list; the list is longer by the
    number of calls, the default id is the id drawn last and the active
    configuration is the profile appended last. *)
Theorem updateUploaderConfig_new_id_appends_one :
  (forall (newUuid : nat -> string) (dateNow : nat -> Z)
          (trimValues : value -> obj)
          (type : string) (id config : value) (s : store) (cl : list value),
      type <> EmptyString ->
      stored s ("uploader." ++ type ++ ".configList") = VArr cl ->
      id_absent id cl ->
      id_absent (VStr (newUuid (uuidCalls s))) cl ->
      exists s' profile,
        updateUploaderConfig newUuid dateNow trimValues type id config s
        = Ret tt s'
        /\ profile
           = VObj (assign
                     (assign [("_configName", VStr "Default")]
                             (trimValues config))
                     [("_id", VStr (newUuid (uuidCalls s)));
                      ("_createdAt", VNum (dateNow (clockCalls s)));
                      ("_updatedAt", VNum (dateNow (S (clockCalls s))))])
        /\ get_prop profile "_id" = VStr (newUuid (uuidCalls s))
        /\ get_prop profile "_createdAt" = VNum (dateNow (clockCalls s))
        /\ get_prop profile "_updatedAt" = VNum (dateNow (S (clockCalls s)))
        /\ stored s' ("uploader." ++ type ++ ".configList")
           = VArr (cl ++ [profile])
        /\ configList_length s' type = S (configList_length s type)
        /\ count_id (VStr (newUuid (uuidCalls s))) (cl ++ [profile]) = 1
        /\ stored s' ("uploader." ++ type ++ ".defaultId")
           = VStr (newUuid (uuidCalls s))
        /\ stored s' ("picBed." ++ type) = profile
        /\ uuidCalls s' = S (uuidCalls s))
  /\ (forall (newUuid : nat -> string) (dateNow : nat -> Z)
             (trimValues : value -> obj) (type : string)
             (calls : list (value * value)) (s : store) (cl : list value),
         type <> EmptyString ->
         (forall m n, newUuid m = newUuid n -> m = n) ->
         (forall n, id_absent (VStr (newUuid n)) cl) ->
         (forall n call, In call calls ->
                         strict_eq (VStr (newUuid n)) (fst call) = false) ->
         stored s ("uploader." ++ type ++ ".configList") = VArr cl ->
         Forall (fun call => id_absent (fst call) cl) calls ->
         exists s' profiles,
           update_all newUuid dateNow trimValues type calls s = Ret tt s'
           /\ profiles
              = created_profiles newUuid dateNow trimValues calls
                  (uuidCalls s) (clockCalls s)
           /\ stored s' ("uploader." ++ type ++ ".configList")
              = VArr (cl ++ profiles)
           /\ List.length profiles = List.length calls
           /\ map (fun p => get_prop p "_id") profiles
              = map (fun i => VStr (newUuid (uuidCalls s + i)))
                    (seq 0 (List.length calls))
           /\ NoDup (map (fun p => get_prop p "_id") profiles)
           /\ Forall (fun p => id_absent (get_prop p "_id") cl) profiles
           /\ configList_length s' type
              = List.length cl + List.length calls
           /\ uuidCalls s' = uuidCalls s + List.length calls
           /\ (calls <> [] ->
               stored s' ("uploader." ++ type ++ ".defaultId")
               = VStr (newUuid (pred (uuidCalls s')))
               /\ stored s' ("picBed." ++ type) = last profiles VUndef)).
Proof.
  split.
  - intros newUuid dateNow trimValues type id config s cl Hty Hcl Hid Hfresh.
    destruct (updateUploaderConfig_create_step newUuid dateNow trimValues
                type id config s cl Hty Hcl Hid)
      as (s' & profile & Hrun & Hprof & Hpid & Hc & Hu & Hl & Hlen & Hd & Hp
          & Hn).
    exists s', profile. repeat split; auto.
    rewrite count_id_app, (count_id_absent _ _ Hfresh).
    unfold count_id. cbn [filter]. rewrite Hpid. cbn [strict_eq].
    now rewrite String.eqb_refl.
  - intros newUuid dateNow trimValues type calls s cl
           Hty Hinj Hfresh Hgen Hcl Hno.
    destruct (update_all_appends_profiles newUuid dateNow trimValues type
                calls Hty Hgen s cl Hcl Hno)
      as (s' & Hrun & Hl & Hu & _ & Hd).
    set (profiles := created_profiles newUuid dateNow trimValues calls
                       (uuidCalls s) (clockCalls s)) in *.
    assert (Hids : map (fun p => get_prop p "_id") profiles
                   = map (fun i => VStr (newUuid (uuidCalls s + i)))
                         (seq 0 (List.length calls)))
      by apply created_profiles_ids.
    assert (Hlen : List.length profiles = List.length calls).
    { rewrite <- (length_map (fun p => get_prop p "_id") profiles), Hids.
      now rewrite length_map, length_seq. }
    exists s', profiles. split; [exact Hrun|]. split; [reflexivity|].
    split; [exact Hl|].
    split; [exact Hlen|]. split; [exact Hids|]. split.
    { rewrite Hids. apply Injective_map_NoDup; [|apply seq_NoDup].
      intros i j Hij. injection Hij as Hij. apply Hinj in Hij. lia. }
    split.
    { apply Forall_forall. intros p Hp.
      assert (Hin : In (get_prop p "_id")
                       (map (fun q => get_prop q "_id") profiles))
        by (apply in_map_iff; eauto).
      rewrite Hids in Hin. apply in_map_iff in Hin as (i & <- & _).
      apply Hfresh. }
    split.
    { unfold configList_length. rewrite Hl, length_app. lia. }
    split; [exact Hu | exact Hd].
Qed.

Lemma tally_uuid_inj (m n : nat) : tally_uuid m = tally_uuid n -> m = n.
Proof.
  revert n. induction m as [|m IH]; intros [|n] H; try discriminate;
    [reflexivity|].
  injection H as H. f_equal. now apply IH.
Qed.

Lemma updateUploaderConfig_new_id_appends_one_witness :
  ("github" <> EmptyString
   /\ stored two_profiles ("uploader." ++ "github" ++ ".configList")
      = VArr [VObj [("_id", VStr "a"); ("token", VStr "t1")];
              VObj [("_id", VStr "b"); ("token", VStr "t2")]]
   /\ id_absent (VStr "zz")
                [VObj [("_id", VStr "a"); ("token", VStr "t1")];
                 VObj [("_id", VStr "b"); ("token", VStr "t2")]]
   /\ id_absent (VStr (sample_uuid (uuidCalls two_profiles)))
                [VObj [("_id", VStr "a"); ("token", VStr "t1")];
                 VObj [("_id", VStr "b"); ("token", VStr "t2")]]
   /\ exists s',
       updateUploaderConfig sample_uuid sample_clock sample_trim
         "github" (VStr "zz") (VObj [("token", VStr "t3")]) two_profiles
       = Ret tt s'
       /\ configList_length s' "github" = 3
       /\ stored s' "uploader.github.defaultId" = VStr "id-0")
  /\ exists s' profiles,
      update_all tally_uuid sample_clock sample_trim "github"
        [(VStr "zz", VObj [("token", VStr "t3")]);
         (VStr "yy", VObj [("token", VStr "t4")])] two_profiles
      = Ret tt s'
      /\ List.length profiles = 2
      /\ NoDup (map (fun p => get_prop p "_id") profiles)
      /\ configList_length s' "github" = 4
      /\ stored s' "uploader.github.defaultId" = VStr "i#".
Proof.
  assert (H1 : "github" <> EmptyString) by discriminate.
  assert (H3 : id_absent (VStr "zz")
                 [VObj [("_id", VStr "a"); ("token", VStr "t1")];
                  VObj [("_id", VStr "b"); ("token", VStr "t2")]])
    by (repeat constructor).
  assert (H4 : id_absent (VStr (sample_uuid (uuidCalls two_profiles)))
                 [VObj [("_id", VStr "a"); ("token", VStr "t1")];
                  VObj [("_id", VStr "b"); ("token", VStr "t2")]])
    by (repeat constructor).
  split.
  - split; [exact H1|]. split; [reflexivity|]. split; [exact H3|].
    split; [exact H4|].
    destruct (proj1 updateUploaderConfig_new_id_appends_one
                sample_uuid sample_clock sample_trim
                "github" (VStr "zz") (VObj [("token", VStr "t3")])
                two_profiles _ H1 eq_refl H3 H4)
      as (s' & profile & Hrun & _ & _ & _ & _ & _ & Hlen & _ & Hdef & _).
    exists s'. split; [exact Hrun|]. split; [exact Hlen | exact Hdef].
  - assert (Hfresh : forall n,
               id_absent (VStr (tally_uuid n))
                 [VObj [("_id", VStr "a"); ("token", VStr "t1")];
                  VObj [("_id", VStr "b"); ("token", VStr "t2")]])
      by (intros [|n]; repeat constructor).
    assert (Hgen : forall n call,
               In call [(VStr "zz", VObj [("token", VStr "t3")]);
                        (VStr "yy", VObj [("token", VStr "t4")])] ->
               strict_eq (VStr (tally_uuid n)) (fst call) = false)
      by (intros [|n] call [<-|[<-|[]]]; reflexivity).
    assert (Hno : Forall
               (fun call : value * value =>
                  id_absent (fst call)
                    [VObj [("_id", VStr "a"); ("token", VStr "t1")];
                     VObj [("_id", VStr "b"); ("token", VStr "t2")]])
               [(VStr "zz", VObj [("token", VStr "t3")]);
                (VStr "yy", VObj [("token", VStr "t4")])])
      by (repeat constructor).
    destruct (proj2 updateUploaderConfig_new_id_appends_one
                tally_uuid sample_clock sample_trim "github"
                [(VStr "zz", VObj [("token", VStr "t3")]);
                 (VStr "yy", VObj [("token", VStr "t4")])]
                two_profiles _ H1 tally_uuid_inj Hfresh Hgen eq_refl Hno)
      as (s' & profiles & Hrun & _ & _ & Hlen & _ & Hnd & _ & Hcl & _ & Hd).
    exists s', profiles. split; [exact Hrun|]. split; [exact Hlen|].
    split; [exact Hnd|]. split; [exact Hcl|].
    assert (Hs : uuidCalls s' = 2).
    { assert (Hr := Hrun). lazy in Hr. injection Hr as <-. reflexivity. }
    assert (Hd' := proj1 (Hd ltac:(discriminate))).
    rewrite Hs in Hd'. exact Hd'.
Defined.

(** C3 as stated fails on the first call for a type: with no profile list
    stored, the read that [updateUploaderConfig] starts with migrates the
    type into a one-entry list, drawing an id of its own, and the new
    profile is appended to that; one call leaves two entries and has asked
    the generator twice. *)
Lemma updateUploaderConfig_first_call_leaves_two :
  exists s',
    updateUploaderConfig sample_uuid sample_clock sample_trim
      "github" (VStr "zz") (VObj [("token", VStr "t3")]) empty_store
    = Ret tt s'
    /\ stored empty_store "uploader.github.configList" = VUndef
    /\ configList_length empty_store "github" = 0
    /\ configList_length s' "github" = 2
    /\ uuidCalls s' = 2
    /\ stored s' "uploader.github.defaultId" = VStr "id-1".
Proof.
  eexists. split; [lazy; reflexivity|]. repeat split.
Qed.

(** ** Migration of a legacy setting *)

Lemma migration_keys_NoDup (type : string) (v1 v2 : value) :
  NoDup (map fst [("uploader." ++ type, v1); ("picBed." ++ type, v2)]).
Proof.
  cbn [map fst]. repeat constructor; simpl.
  - intros [H|[]]. discriminate H.
  - intros [].
Qed.

(** The patch that ends [upgradeUploaderConfig]. *)
Lemma save_migration_patch (type : string) (u legacy : value) (s : store) :
  exists s',
    savePicgoConfig (Some [("uploader." ++ type, u);
                           ("picBed." ++ type, legacy)]) s
    = Ret tt s'
    /\ (forall field,
           baseGet (VObj (reactiveCfg s'))
                   (("uploader" :: stringToPath type) ++ [field])
           = baseGet u [field])
    /\ baseGet (VObj (reactiveCfg s')) ("picBed" :: stringToPath type)
       = legacy
    /\ emitted s'
       = (emitted s ++ [CONFIG_CHANGE ("uploader." ++ type) u;
                        CONFIG_CHANGE ("picBed." ++ type) legacy])%list
    /\ uuidCalls s' = uuidCalls s
    /\ clockCalls s' = clockCalls s.
Proof.
  rewrite savePicgoConfig_run by apply migration_keys_NoDup.
  eexists. split; [reflexivity|].
  cbn [reactiveCfg emitted uuidCalls clockCalls fold_left map].
  unfold apply_entry, change_event, lodash_set. cbn [fst snd].
  rewrite path_uploader, path_picBed.
  repeat split.
  - intros field.
    transitivity
      (baseGet (VObj (baseSet (reactiveCfg s)
                              ("uploader" :: stringToPath type) u))
               (("uploader" :: stringToPath type) ++ [field])).
    { cbn [app]. now apply baseGet_baseSet_root. }
    rewrite baseGet_app.
    rewrite baseGet_baseSet_same by discriminate. reflexivity.
  - apply baseGet_baseSet_same. discriminate.
Qed.

(** X25. A setting under picBed that already carries an [_id] is migrated
    as it is.  For a non-empty type with no profile list yet, whose
    settings under uploader are not null, and whose setting under picBed is
    an object with a truthy [_id], [getUploaderConfigList] returns exactly
    one profile, that object with every field as stored; no id is drawn,
    the profile keeps its own, and that is the default id.  Before
    returning, the one-entry list and the default id are written under
    uploader and the profile under picBed, with one event each. *)
Theorem getUploaderConfigList_migrates_legacy_keeping_id
    (newUuid : nat -> string) (dateNow : nat -> Z)
    (trimValues : value -> obj)
    (type : string) (s : store) (legacy : obj) :
  type <> EmptyString ->
  truthy (stored s ("uploader." ++ type ++ ".configList")) = false ->
  stored s ("uploader." ++ type) <> VNull ->
  stored s ("picBed." ++ type) = VObj legacy ->
  truthy (get_prop (VObj legacy) "_id") = true ->
  exists s',
    getUploaderConfigList newUuid dateNow trimValues type s
    = Ret (mkItem (VArr [VObj legacy]) (get_prop (VObj legacy) "_id")) s'
    /\ stored s' ("uploader." ++ type ++ ".configList") = VArr [VObj legacy]
    /\ stored s' ("uploader." ++ type ++ ".defaultId")
       = get_prop (VObj legacy) "_id"
    /\ stored s' ("picBed." ++ type) = VObj legacy
    /\ uuidCalls s' = uuidCalls s
    /\ emitted s'
       = (emitted s
          ++ [CONFIG_CHANGE ("uploader." ++ type)
                (VObj [("configList", VArr [VObj legacy]);
                       ("defaultId", get_prop (VObj legacy) "_id")]);
              CONFIG_CHANGE ("picBed." ++ type) (VObj legacy)])%list.
Proof.
  intros Hty Hcl Hnull Hleg Hid.
  set (u := VObj [("configList", VArr [VObj legacy]);
                  ("defaultId", get_prop (VObj legacy) "_id")]).
  destruct (save_migration_patch type u (VObj legacy) s)
    as (s' & Hrun & Hu & Hp & He & Hn & _).
  exists s'. split.
  { assert (Hup : upgradeUploaderConfig newUuid dateNow trimValues type s
                  = Ret (mkItem (VArr [VObj legacy])
                                (get_prop (VObj legacy) "_id")) s').
    { unfold upgradeUploaderConfig, bind, read_cfg.
      rewrite <- stored_baseGet, Hleg, Hid.
      unfold upgrade_persist, bind. fold u. now rewrite Hrun. }
    assert (Hnull' : baseGet (VObj (reactiveCfg s))
                             ("uploader" :: stringToPath type) <> VNull).
    { intros E. apply Hnull. rewrite stored_baseGet, path_uploader. exact E. }
    rewrite stored_baseGet in Hcl.
    change (type ++ ".configList") with (type ++ "." ++ "configList") in Hcl.
    rewrite path_uploader_field in Hcl.
    change (stringToPath "configList") with ["configList"] in Hcl.
    rewrite baseGet_field in Hcl.
    unfold getUploaderConfigList.
    apply String.eqb_neq in Hty. rewrite Hty.
    unfold getPicgoConfig, read_cfg, ret, lodash_get, bind.
    rewrite path_uploader.
    destruct (baseGet (VObj (reactiveCfg s)) ("uploader" :: stringToPath type))
      as [| | | | | |f]; try congruence; try exact Hup.
    rewrite Hcl. exact Hup. }
  change (type ++ ".configList") with (type ++ "." ++ "configList").
  change (type ++ ".defaultId") with (type ++ "." ++ "defaultId").
  rewrite !stored_baseGet, !path_uploader_field, path_picBed.
  change (stringToPath "configList") with ["configList"].
  change (stringToPath "defaultId") with ["defaultId"].
  rewrite !Hu.
  split; [reflexivity|]. split; [reflexivity|]. split; [exact Hp|].
  split; [exact Hn | exact He].
Qed.

Lemma getUploaderConfigList_migrates_legacy_keeping_id_witness :
  "smms" <> EmptyString
  /\ truthy (stored legacy_with_id ("uploader." ++ "smms" ++ ".configList"))
     = false
  /\ stored legacy_with_id ("uploader." ++ "smms") <> VNull
  /\ stored legacy_with_id ("picBed." ++ "smms")
     = VObj [("_id", VStr "x"); ("token", VStr "abc")]
  /\ truthy (get_prop (VObj [("_id", VStr "x"); ("token", VStr "abc")]) "_id")
     = true
  /\ exists s',
      getUploaderConfigList sample_uuid sample_clock sample_trim
        "smms" legacy_with_id
      = Ret (mkItem (VArr [VObj [("_id", VStr "x"); ("token", VStr "abc")]])
                    (VStr "x")) s'
      /\ stored s' "uploader.smms.defaultId" = VStr "x".
Proof.
  assert (H1 : "smms" <> EmptyString) by discriminate.
  assert (H3 : stored legacy_with_id ("uploader." ++ "smms") <> VNull)
    by discriminate.
  split; [exact H1|]. split; [reflexivity|]. split; [exact H3|].
  split; [reflexivity|]. split; [reflexivity|].
  destruct (getUploaderConfigList_migrates_legacy_keeping_id
              sample_uuid sample_clock sample_trim
              "smms" legacy_with_id _ H1 eq_refl H3 eq_refl eq_refl)
    as (s' & Hrun & _ & Hdef & _).
  exists s'. split; [exact Hrun | exact Hdef].
Defined.

(** C4. On the document whose only content is the legacy smms setting
    with its token, the first read of smms draws an id and then loses it:
    the fields with the id are laid over the value that [getPicgoConfig]
    handed out, a read-only view of the stored setting, which takes no
    write.  The one profile returned and stored is the legacy object
    without any [_id], and the default id returned and stored is
    undefined, where the claim has a freshly assigned id on the profile
    and as default id. *)
Theorem getUploaderConfigList_legacy_setting_gets_no_id :
  stored legacy_without_id "uploader.smms.configList" = VUndef
  /\ stored legacy_without_id "picBed.smms"
     = VObj [("token", VStr "abc")]
  /\ exists s',
      getUploaderConfigList sample_uuid sample_clock sample_trim
        "smms" legacy_without_id
      = Ret (mkItem (VArr [VObj [("token", VStr "abc")]]) VUndef) s'
      /\ uuidCalls s' = 1
      /\ stored s' "uploader.smms.configList"
         = VArr [VObj [("token", VStr "abc")]]
      /\ get_prop (VObj [("token", VStr "abc")]) "_id" = VUndef
      /\ stored s' "uploader.smms.defaultId" = VUndef
      /\ stored s' "picBed.smms" = VObj [("token", VStr "abc")].
Proof.
  split; [reflexivity|]. split; [reflexivity|].
  eexists. split; [lazy; reflexivity|]. repeat split.
Qed.

(** ** The list of backend types before it is sorted *)

Lemma find_by_type_total (item : string) (l : list value) :
  forallb not_nullish l = true ->
  exists v, find_by_type item l = Some v.
Proof.
  induction l as [|x r IH]; simpl; intros H; [eauto|].
  apply andb_prop in H as [Hx Hr].
  destruct x; try discriminate;
    match goal with
    | |- context [if ?c then _ else _] => destruct c; eauto
    end.
Qed.

Lemma picBed_of_run (ctx : IPicGo) (l : list value) (item : string)
    (s : store) :
  forallb not_nullish l = true ->
  registered ctx item = true ->
  picBed_of ctx (VArr l) item s = Ret (bed_of ctx l item) s.
Proof.
  intros Hl Hreg. unfold picBed_of, bed_of, bed_name, pref_visible, bind.
  destruct (find_by_type_total item l Hl) as [v Hv]. rewrite Hv.
  unfold registered in Hreg.
  destruct (uploader_get ctx item) as [plugin|]; [|discriminate].
  reflexivity.
Qed.

Lemma mapM_picBed_of (ctx : IPicGo) (l : list value) (ids : list string)
    (s : store) :
  forallb not_nullish l = true ->
  forallb (registered ctx) ids = true ->
  mapM (picBed_of ctx (VArr l)) ids s = Ret (map (bed_of ctx l) ids) s.
Proof.
  intros Hl. induction ids as [|item r IH]; intros Hreg; [reflexivity|].
  simpl in Hreg. apply andb_prop in Hreg as [Hi Hr].
  cbn [mapM map]. unfold bind.
  rewrite picBed_of_run by assumption.
  rewrite IH by assumption. reflexivity.
Qed.

(** Before the sort, [getPicBeds] has one entry per registered type, in
    registry order, each with the name of its plugin (or its id) and the
    [visible] flag of its preference entry (true without one). *)
Lemma picBeds_unsorted_entries (ctx : IPicGo) (s : store) (l : list value) :
  stored s "picBed.list" = VArr l ->
  forallb not_nullish l = true ->
  forallb (registered ctx) (getIdList ctx) = true ->
  picBeds_unsorted ctx s = Ret (map (bed_of ctx l) (getIdList ctx)) s.
Proof.
  intros Hst Hl Hreg.
  unfold picBeds_unsorted, getPicgoConfig, read_cfg, ret, bind.
  change (lodash_get (reactiveCfg s) "picBed.list" VUndef)
    with (stored s "picBed.list").
  rewrite Hst. cbn [truthy]. now apply mapM_picBed_of.
Qed.

Lemma picBeds_unsorted_no_preference (ctx : IPicGo) (s : store) :
  truthy (stored s "picBed.list") = false ->
  forallb (registered ctx) (getIdList ctx) = true ->
  picBeds_unsorted ctx s = Ret (map (bed_of ctx []) (getIdList ctx)) s
  /\ Forall (fun b => bedVisible b = VBool true)
            (map (bed_of ctx []) (getIdList ctx)).
Proof.
  intros Hst Hreg. split.
  - unfold picBeds_unsorted, getPicgoConfig, read_cfg, ret, bind.
    change (lodash_get (reactiveCfg s) "picBed.list" VUndef)
      with (stored s "picBed.list").
    rewrite Hst.
    now apply mapM_picBed_of.
  - apply Forall_forall. intros b Hb.
    apply in_map_iff in Hb as (item & <- & _). reflexivity.
Qed.

(** With every registered id resolved by the registry and a preference
    list of objects, [getPicBeds] returns: the sort of the entries above,
    the store untouched. *)
Lemma getPicBeds_returns
    (array_sort : (IPicBedType -> IPicBedType -> Z) ->
                  list IPicBedType -> list IPicBedType)
    (ctx : IPicGo) (s : store) (l : list value) :
  stored s "picBed.list" = VArr l ->
  forallb not_nullish l = true ->
  forallb (registered ctx) (getIdList ctx) = true ->
  getPicBeds array_sort ctx s
  = Ret (array_sort github_first (map (bed_of ctx l) (getIdList ctx))) s.
Proof.
  intros Hst Hl Hreg. unfold getPicBeds, bind.
  now rewrite (picBeds_unsorted_entries ctx s l Hst Hl Hreg).
Qed.

(** ** [deleteUploaderConfig] on a stored list *)

Lemma single_key_NoDup (k : string) (v : value) : NoDup (map fst [(k, v)]).
Proof. repeat constructor. intros []. Qed.

(** A stored list with at most one entry is left alone: nothing is
    returned and the store is as before. *)
Lemma deleteUploaderConfig_short_list
    (newUuid : nat -> string) (dateNow : nat -> Z)
    (trimValues : value -> obj)
    (type : string) (id : value) (s : store) (cl : list value) :
  type <> EmptyString ->
  stored s ("uploader." ++ type ++ ".configList") = VArr cl ->
  List.length cl <= 1 ->
  deleteUploaderConfig newUuid dateNow trimValues type id s = Ret None s.
Proof.
  intros Hty Hcl Hlen. unfold deleteUploaderConfig, bind.
  rewrite getUploaderConfigList_stored by (rewrite ?Hcl; auto).
  rewrite Hcl. cbn [configList].
  apply Nat.leb_le in Hlen. now rewrite Hlen.
Qed.

(** On a stored list of two or more entries, a call with an id other than
    undefined writes the list without the entries of that id, and nothing
    else: the stored default id and the active configuration of the type
    stay what they were, whichever entry went. *)
Lemma deleteUploaderConfig_only_writes_list
    (newUuid : nat -> string) (dateNow : nat -> Z)
    (trimValues : value -> obj)
    (type : string) (id : value) (s : store) (cl rest : list value) :
  type <> EmptyString ->
  stored s ("uploader." ++ type ++ ".configList") = VArr cl ->
  2 <= List.length cl ->
  strict_eq id VUndef = false ->
  filter_out_id id cl = Some rest ->
  exists s',
    deleteUploaderConfig newUuid dateNow trimValues type id s
    = Ret (Some (mkItem (VArr rest) VUndef)) s'
    /\ stored s' ("uploader." ++ type ++ ".configList") = VArr rest
    /\ stored s' ("uploader." ++ type ++ ".defaultId")
       = stored s ("uploader." ++ type ++ ".defaultId")
    /\ stored s' ("picBed." ++ type) = stored s ("picBed." ++ type)
    /\ emitted s'
       = (emitted s
          ++ [CONFIG_CHANGE ("uploader." ++ type ++ ".configList")
                            (VArr rest)])%list.
Proof.
  intros Hty Hcl Hlen Hid Hrest.
  eexists. split.
  { unfold deleteUploaderConfig, bind.
    rewrite getUploaderConfigList_stored by (rewrite ?Hcl; auto).
    rewrite Hcl. cbn [configList].
    assert (Hleb : Nat.leb (List.length cl) 1 = false)
      by (apply Nat.leb_gt; lia).
    rewrite Hleb, Hrest, Hid. cbn [lift_option ret].
    rewrite savePicgoConfig_run by apply single_key_NoDup.
    reflexivity. }
  cbn [fold_left map]. unfold apply_entry, change_event. cbn [fst snd].
  rewrite !stored_baseGet. cbn [reactiveCfg emitted]. unfold lodash_set.
  change (type ++ ".configList") with (type ++ "." ++ "configList").
  change (type ++ ".defaultId") with (type ++ "." ++ "defaultId").
  rewrite !path_uploader_field, path_picBed.
  change (stringToPath "configList") with ["configList"].
  change (stringToPath "defaultId") with ["defaultId"].
  repeat split.
  - apply baseGet_baseSet_same. destruct (stringToPath type); discriminate.
  - now apply baseGet_baseSet_sibling.
  - cbn [app]. now apply baseGet_baseSet_root.
Qed.

(** ** [updateUploaderConfig] with the id of a stored profile *)

(** Whenever the id is that of a stored profile, the merged profile
    replaces it in the list and becomes the active configuration, and the
    default id written is undefined. *)
Lemma updateUploaderConfig_merge_writes_undefined_default
    (newUuid : nat -> string) (dateNow : nat -> Z)
    (trimValues : value -> obj)
    (type : string) (id config : value) (s : store) (cl : list value)
    (fields : obj) :
  type <> EmptyString ->
  stored s ("uploader." ++ type ++ ".configList") = VArr cl ->
  find_by_id id cl = Some (VObj fields) ->
  exists s',
    updateUploaderConfig newUuid dateNow trimValues type id config s
    = Ret tt s'
    /\ stored s' ("uploader." ++ type ++ ".configList")
       = VArr (replace_by_id id
                 (merge_profile (VObj fields) (trimValues config)
                                (dateNow (clockCalls s))) cl)
    /\ stored s' ("uploader." ++ type ++ ".defaultId") = VUndef
    /\ stored s' ("picBed." ++ type)
       = merge_profile (VObj fields) (trimValues config)
                       (dateNow (clockCalls s)).
Proof.
  intros Hty Hcl Hfind.
  set (merged := merge_profile (VObj fields) (trimValues config)
                               (dateNow (clockCalls s))).
  set (s1 := mkStore (reactiveCfg s) (emitted s)
                     (uuidCalls s) (S (clockCalls s))).
  destruct (save_profile_patch type (VArr (replace_by_id id merged cl))
              VUndef merged s1)
    as (s' & Hrun & H1 & H2 & H3 & _).
  exists s'. split.
  { unfold updateUploaderConfig, bind.
    rewrite getUploaderConfigList_stored by (rewrite ?Hcl; auto).
    rewrite Hcl. cbn [configList]. rewrite Hfind.
    cbn [lift_option ret truthy]. unfold Date_now.
    fold merged s1. exact Hrun. }
  rewrite !stored_baseGet. auto.
Qed.

(** * Further properties *)

(** ** The active backend type *)

Lemma baseGet_baseSet_inner (q : list string) (o : obj) (k k' : string)
    (r r' : list string) (v : value) :
  String.eqb k' k = false ->
  baseGet (VObj (baseSet o (q ++ k :: r) v)) (q ++ k' :: r')
  = baseGet (VObj o) (q ++ k' :: r').
Proof. intros H. now apply baseGet_baseSet_diverge. Qed.

(** The patch that names the active backend type: both settings hold their
    value afterwards and every other setting is what it was. *)
Lemma save_current_uploader (a b : value) (s : store) :
  exists s',
    savePicgoConfig (Some [("picBed.current", a); ("picBed.uploader", b)]) s
    = Ret tt s'
    /\ stored s' "picBed.current" = a
    /\ stored s' "picBed.uploader" = b
    /\ emitted s'
       = (emitted s ++ [CONFIG_CHANGE "picBed.current" a;
                        CONFIG_CHANGE "picBed.uploader" b])%list
    /\ uuidCalls s' = uuidCalls s
    /\ clockCalls s' = clockCalls s
    /\ (forall k r, String.eqb k "picBed" = false ->
                    baseGet (VObj (reactiveCfg s')) (k :: r)
                    = baseGet (VObj (reactiveCfg s)) (k :: r))
    /\ (forall f r, String.eqb f "current" = false ->
                    String.eqb f "uploader" = false ->
                    baseGet (VObj (reactiveCfg s')) ("picBed" :: f :: r)
                    = baseGet (VObj (reactiveCfg s)) ("picBed" :: f :: r)).
Proof.
  rewrite savePicgoConfig_run
    by (repeat constructor; simpl; intuition discriminate).
  eexists. split; [reflexivity|].
  cbn [reactiveCfg emitted uuidCalls clockCalls fold_left map].
  unfold apply_entry, change_event, lodash_set. cbn [fst snd].
  change (stringToPath "picBed.current") with ["picBed"; "current"].
  change (stringToPath "picBed.uploader") with ["picBed"; "uploader"].
  rewrite !stored_baseGet. cbn [reactiveCfg].
  change (stringToPath "picBed.current") with ["picBed"; "current"].
  change (stringToPath "picBed.uploader") with ["picBed"; "uploader"].
  repeat split.
  - rewrite (baseGet_baseSet_inner ["picBed"] _ "uploader" "current" [] [] b)
      by reflexivity.
    apply baseGet_baseSet_same. discriminate.
  - apply baseGet_baseSet_same. discriminate.
  - intros k r Hk. now rewrite !baseGet_baseSet_root.
  - intros f r Hc Hu.
    rewrite (baseGet_baseSet_inner ["picBed"] _ "uploader" f [] r b Hu).
    apply (baseGet_baseSet_inner ["picBed"] _ "current" f [] r a Hc).
Qed.

Lemma getCurrentUploader_run (s : store) :
  getCurrentUploader s
  = Ret (if truthy (stored s "picBed.uploader")
         then stored s "picBed.uploader"
         else if truthy (stored s "picBed.current")
              then stored s "picBed.current"
              else VStr "smms") s.
Proof.
  unfold getCurrentUploader, getPicgoConfig, read_cfg, ret, bind.
  change (lodash_get (reactiveCfg s) "picBed.uploader" VUndef)
    with (stored s "picBed.uploader").
  destruct (truthy (stored s "picBed.uploader")); [reflexivity|].
  change (lodash_get (reactiveCfg s) "picBed.current" VUndef)
    with (stored s "picBed.current").
  now destruct (truthy (stored s "picBed.current")).
Qed.

(** X1. [getCurrentUploader] never writes and never answers with a falsy
    value: it gives the stored picBed.uploader when that is truthy, else
    the stored picBed.current when that is truthy, else smms. *)
Theorem getCurrentUploader_always_truthy (s : store) :
  exists v,
    getCurrentUploader s = Ret v s
    /\ truthy v = true
    /\ v = (if truthy (stored s "picBed.uploader")
            then stored s "picBed.uploader"
            else if truthy (stored s "picBed.current")
                 then stored s "picBed.current"
                 else VStr "smms").
Proof.
  rewrite getCurrentUploader_run. eexists. split; [reflexivity|].
  split; [|reflexivity].
  destruct (truthy (stored s "picBed.uploader")) eqn:Eu; [exact Eu|].
  now destruct (truthy (stored s "picBed.current")) eqn:Ec.
Qed.

(** X2. After [setDefaultPicBed(type)] the settings picBed.current and
    picBed.uploader both hold the type, two events were emitted (current,
    then uploader), and [getCurrentUploader] answers with the type; for
    the empty type it answers smms. *)
Theorem setDefaultPicBed_then_getCurrentUploader (type : string) (s : store) :
  exists s',
    setDefaultPicBed type s = Ret tt s'
    /\ stored s' "picBed.current" = VStr type
    /\ stored s' "picBed.uploader" = VStr type
    /\ emitted s'
       = (emitted s ++ [CONFIG_CHANGE "picBed.current" (VStr type);
                        CONFIG_CHANGE "picBed.uploader" (VStr type)])%list
    /\ getCurrentUploader s'
       = Ret (VStr (if String.eqb type EmptyString then "smms" else type)) s'.
Proof.
  destruct (save_current_uploader (VStr type) (VStr type) s)
    as (s' & Hrun & Hc & Hu & He & _).
  exists s'. split; [exact Hrun|]. repeat split; auto.
  rewrite getCurrentUploader_run, Hu, Hc. cbn [truthy].
  now destruct (String.eqb type EmptyString).
Qed.

(** ** Restoring the defaults when a plugin goes *)

Lemma strict_eq_VStr (v : value) (n : string) :
  strict_eq v (VStr n) = true <-> v = VStr n.
Proof.
  destruct v; simpl; split; intros H; try discriminate.
  - apply String.eqb_eq in H. now subst.
  - injection H as ->. apply String.eqb_refl.
Qed.

Lemma strict_eq_VStr_false (v : value) (n : string) :
  v <> VStr n -> strict_eq v (VStr n) = false.
Proof.
  intros H. destruct (strict_eq v (VStr n)) eqn:E; [|reflexivity].
  apply strict_eq_VStr in E. contradiction.
Qed.

(** X3. When the stored picBed.current is the name of the uploader that
    goes, [handleRestoreState] with the role uploader sets picBed.current
    and picBed.uploader to github, after which [getCurrentUploader] answers
    github; the transformer setting is not touched. *)
Theorem handleRestoreState_uploader_resets_to_github (name : string)
    (s : store) :
  stored s "picBed.current" = VStr name ->
  exists s',
    handleRestoreState "uploader" name s = Ret tt s'
    /\ stored s' "picBed.current" = VStr "github"
    /\ stored s' "picBed.uploader" = VStr "github"
    /\ stored s' "picBed.transformer" = stored s "picBed.transformer"
    /\ getCurrentUploader s' = Ret (VStr "github") s'.
Proof.
  intros Hcur.
  destruct (save_current_uploader (VStr "github") (VStr "github") s)
    as (s' & Hrun & Hc & Hu & _ & _ & _ & _ & Hin).
  exists s'. split.
  { unfold handleRestoreState, bind. cbn [String.eqb Ascii.eqb Bool.eqb].
    unfold getPicgoConfig, read_cfg, ret, bind.
    change (lodash_get (reactiveCfg s) "picBed.current" VUndef)
      with (stored s "picBed.current").
    rewrite Hcur.
    assert (E : strict_eq (VStr name) (VStr name) = true)
      by now apply strict_eq_VStr.
    rewrite E, Hrun. reflexivity. }
  repeat split; auto.
  - rewrite !stored_baseGet.
    change (stringToPath "picBed.transformer") with ["picBed"; "transformer"].
    now apply Hin.
  - rewrite getCurrentUploader_run, Hu. reflexivity.
Qed.

Lemma handleRestoreState_uploader_resets_to_github_witness :
  stored (mkStore [("picBed", VObj [("current", VStr "smms")])] [] 0 0)
         "picBed.current" = VStr "smms"
  /\ exists s',
      handleRestoreState "uploader" "smms"
        (mkStore [("picBed", VObj [("current", VStr "smms")])] [] 0 0)
      = Ret tt s'
      /\ stored s' "picBed.current" = VStr "github".
Proof.
  split; [reflexivity|].
  destruct (handleRestoreState_uploader_resets_to_github "smms"
              (mkStore [("picBed", VObj [("current", VStr "smms")])] [] 0 0)
              eq_refl)
    as (s' & Hrun & Hc & _).
  exists s'. split; [exact Hrun | exact Hc].
Defined.

(** X4. [handleRestoreState] looks at picBed.current only (for the role
    uploader) and at picBed.transformer only (for the role transformer):
    when the setting it looks at is not the name, and for every other role,
    the call writes nothing and emits nothing, whatever picBed.uploader
    holds. *)
Theorem handleRestoreState_other_name_is_noop (item name : string)
    (s : store) :
  (item = "uploader" -> stored s "picBed.current" <> VStr name) ->
  (item = "transformer" -> stored s "picBed.transformer" <> VStr name) ->
  handleRestoreState item name s = Ret tt s.
Proof.
  intros Hu Ht. unfold handleRestoreState, bind.
  destruct (String.eqb item "uploader") eqn:Eu.
  - apply String.eqb_eq in Eu. subst item.
    unfold getPicgoConfig, read_cfg, ret, bind.
    change (lodash_get (reactiveCfg s) "picBed.current" VUndef)
      with (stored s "picBed.current").
    rewrite (strict_eq_VStr_false _ _ (Hu eq_refl)). reflexivity.
  - unfold ret at 1. destruct (String.eqb item "transformer") eqn:Et.
    + apply String.eqb_eq in Et. subst item.
      unfold getPicgoConfig, read_cfg, ret, bind.
      change (lodash_get (reactiveCfg s) "picBed.transformer" VUndef)
        with (stored s "picBed.transformer").
      rewrite (strict_eq_VStr_false _ _ (Ht eq_refl)). reflexivity.
    + reflexivity.
Qed.

Lemma handleRestoreState_other_name_is_noop_witness :
  ("uploader" = "uploader" ->
   stored current_github_uploader_smms "picBed.current" <> VStr "smms")
  /\ ("uploader" = "transformer" ->
      stored current_github_uploader_smms "picBed.transformer" <> VStr "smms")
  /\ stored current_github_uploader_smms "picBed.uploader" = VStr "smms"
  /\ handleRestoreState "uploader" "smms" current_github_uploader_smms
     = Ret tt current_github_uploader_smms.
Proof.
  assert (H1 : "uploader" = "uploader" ->
               stored current_github_uploader_smms "picBed.current"
               <> VStr "smms") by (intros _; discriminate).
  assert (H2 : "uploader" = "transformer" ->
               stored current_github_uploader_smms "picBed.transformer"
               <> VStr "smms") by (intros _; discriminate).
  split; [exact H1|]. split; [exact H2|]. split; [reflexivity|].
  exact (handleRestoreState_other_name_is_noop
           "uploader" "smms" current_github_uploader_smms H1 H2).
Defined.

Lemma save_single (k : string) (v : value) (s : store) :
  savePicgoConfig (Some [(k, v)]) s
  = Ret tt (mkStore (lodash_set (reactiveCfg s) k v)
                    (emitted s ++ [CONFIG_CHANGE k v])
                    (uuidCalls s) (clockCalls s)).
Proof. now rewrite savePicgoConfig_run by apply single_key_NoDup. Qed.

(** X5. When the stored picBed.transformer is the name of the transformer
    that goes, [handleRestoreState] with the role transformer sets it to
    path with one event and leaves the active backend type alone. *)
Theorem handleRestoreState_transformer_resets_to_path (name : string)
    (s : store) :
  stored s "picBed.transformer" = VStr name ->
  exists s',
    handleRestoreState "transformer" name s = Ret tt s'
    /\ stored s' "picBed.transformer" = VStr "path"
    /\ stored s' "picBed.current" = stored s "picBed.current"
    /\ stored s' "picBed.uploader" = stored s "picBed.uploader"
    /\ emitted s'
       = (emitted s ++ [CONFIG_CHANGE "picBed.transformer" (VStr "path")])%list.
Proof.
  intros Hcur. eexists. split.
  { unfold handleRestoreState, bind. cbn [String.eqb Ascii.eqb Bool.eqb].
    unfold getPicgoConfig, read_cfg, ret, bind.
    change (lodash_get (reactiveCfg s) "picBed.transformer" VUndef)
      with (stored s "picBed.transformer").
    rewrite Hcur.
    assert (E : strict_eq (VStr name) (VStr name) = true)
      by now apply strict_eq_VStr.
    rewrite E, save_single. reflexivity. }
  rewrite !stored_baseGet. cbn [reactiveCfg emitted]. unfold lodash_set.
  change (stringToPath "picBed.transformer") with ["picBed"; "transformer"].
  change (stringToPath "picBed.current") with ["picBed"; "current"].
  change (stringToPath "picBed.uploader") with ["picBed"; "uploader"].
  repeat split.
  - apply baseGet_baseSet_same. discriminate.
  - now apply (baseGet_baseSet_inner ["picBed"] _ "transformer" "current").
  - now apply (baseGet_baseSet_inner ["picBed"] _ "transformer" "uploader").
Qed.

Lemma handleRestoreState_transformer_resets_to_path_witness :
  stored (mkStore [("picBed", VObj [("transformer", VStr "watermark")])]
                  [] 0 0) "picBed.transformer" = VStr "watermark"
  /\ exists s',
      handleRestoreState "transformer" "watermark"
        (mkStore [("picBed", VObj [("transformer", VStr "watermark")])]
                 [] 0 0)
      = Ret tt s'
      /\ stored s' "picBed.transformer" = VStr "path".
Proof.
  split; [reflexivity|].
  destruct (handleRestoreState_transformer_resets_to_path "watermark"
              (mkStore [("picBed", VObj [("transformer", VStr "watermark")])]
                       [] 0 0) eq_refl)
    as (s' & Hrun & Ht & _).
  exists s'. split; [exact Hrun | exact Ht].
Defined.

(** ** Selecting a stored profile *)

Lemma select_keys_NoDup (type : string) (v1 v2 : value) :
  NoDup (map fst [("uploader." ++ type ++ ".defaultId", v1);
                  ("picBed." ++ type, v2)]).
Proof.
  cbn [map fst]. repeat constructor; simpl.
  - intros [H|[]]. discriminate H.
  - intros [].
Qed.

(** The patch of a successful [selectUploaderConfig]. *)
Lemma save_select_patch (type : string) (id config : value) (s : store) :
  exists s',
    savePicgoConfig (Some [("uploader." ++ type ++ ".defaultId", id);
                           ("picBed." ++ type, config)]) s
    = Ret tt s'
    /\ stored s' ("uploader." ++ type ++ ".defaultId") = id
    /\ stored s' ("picBed." ++ type) = config
    /\ stored s' ("uploader." ++ type ++ ".configList")
       = stored s ("uploader." ++ type ++ ".configList")
    /\ emitted s'
       = (emitted s
          ++ [CONFIG_CHANGE ("uploader." ++ type ++ ".defaultId") id;
              CONFIG_CHANGE ("picBed." ++ type) config])%list
    /\ uuidCalls s' = uuidCalls s
    /\ clockCalls s' = clockCalls s.
Proof.
  rewrite savePicgoConfig_run by apply select_keys_NoDup.
  eexists. split; [reflexivity|].
  cbn [reactiveCfg emitted uuidCalls clockCalls fold_left map].
  unfold apply_entry, change_event, lodash_set. cbn [fst snd].
  rewrite !stored_baseGet. cbn [reactiveCfg].
  change (type ++ ".configList") with (type ++ "." ++ "configList").
  change (type ++ ".defaultId") with (type ++ "." ++ "defaultId").
  rewrite !path_uploader_field, path_picBed.
  change (stringToPath "configList") with ["configList"].
  change (stringToPath "defaultId") with ["defaultId"].
  repeat split.
  - cbn [app]. rewrite baseGet_baseSet_root by reflexivity.
    apply baseGet_baseSet_same. destruct (stringToPath type); discriminate.
  - apply baseGet_baseSet_same. discriminate.
  - cbn [app]. rewrite baseGet_baseSet_root by reflexivity.
    now apply (baseGet_baseSet_sibling ("uploader" :: stringToPath type)).
Qed.

Lemma selectUploaderConfig_found_run
    (newUuid : nat -> string) (dateNow : nat -> Z)
    (trimValues : value -> obj)
    (type : string) (id config : value) (s : store) (cl : list value) :
  type <> EmptyString ->
  stored s ("uploader." ++ type ++ ".configList") = VArr cl ->
  find_by_id id cl = Some config ->
  truthy config = true ->
  exists s',
    selectUploaderConfig newUuid dateNow trimValues type id s = Ret config s'
    /\ stored s' ("uploader." ++ type ++ ".defaultId") = id
    /\ stored s' ("picBed." ++ type) = config
    /\ stored s' ("uploader." ++ type ++ ".configList") = VArr cl
    /\ emitted s'
       = (emitted s
          ++ [CONFIG_CHANGE ("uploader." ++ type ++ ".defaultId") id;
              CONFIG_CHANGE ("picBed." ++ type) config])%list.
Proof.
  intros Hty Hcl Hfind Htr.
  destruct (save_select_patch type id config s)
    as (s' & Hrun & Hd & Hp & Hl & He & _).
  exists s'. split.
  { unfold selectUploaderConfig, bind.
    rewrite getUploaderConfigList_stored by (rewrite ?Hcl; auto).
    rewrite Hcl. cbn [configList find_in]. rewrite Hfind.
    cbn [lift_option ret]. rewrite Htr, Hrun. reflexivity. }
  rewrite Hl, Hcl. auto.
Qed.

(** X6. Selecting the id of a stored profile returns that profile, makes
    the id the default id and the profile the active configuration of the
    type, with one event each, and leaves the list as it was; a read of
    the type then returns the same list with the selected id as default. *)
Theorem selectUploaderConfig_found_sets_default
    (newUuid : nat -> string) (dateNow : nat -> Z)
    (trimValues : value -> obj)
    (type : string) (id config : value) (s : store) (cl : list value) :
  type <> EmptyString ->
  stored s ("uploader." ++ type ++ ".configList") = VArr cl ->
  find_by_id id cl = Some config ->
  truthy config = true ->
  truthy id = true ->
  exists s',
    selectUploaderConfig newUuid dateNow trimValues type id s = Ret config s'
    /\ stored s' ("uploader." ++ type ++ ".defaultId") = id
    /\ stored s' ("picBed." ++ type) = config
    /\ stored s' ("uploader." ++ type ++ ".configList") = VArr cl
    /\ emitted s'
       = (emitted s
          ++ [CONFIG_CHANGE ("uploader." ++ type ++ ".defaultId") id;
              CONFIG_CHANGE ("picBed." ++ type) config])%list
    /\ getUploaderConfigList newUuid dateNow trimValues type s'
       = Ret (mkItem (VArr cl) id) s'.
Proof.
  intros Hty Hcl Hfind Htr Hid.
  destruct (selectUploaderConfig_found_run newUuid dateNow trimValues
              type id config s cl Hty Hcl Hfind Htr)
    as (s' & Hrun & Hd & Hp & Hl & He).
  exists s'. repeat split; auto.
  rewrite getUploaderConfigList_stored by (rewrite ?Hl; auto).
  now rewrite Hl, Hd, Hid.
Qed.

Lemma selectUploaderConfig_found_sets_default_witness :
  exists s',
    selectUploaderConfig sample_uuid sample_clock sample_trim
      "github" (VStr "b") two_profiles
    = Ret (VObj [("_id", VStr "b"); ("token", VStr "t2")]) s'
    /\ stored s' "uploader.github.defaultId" = VStr "b"
    /\ stored s' "picBed.github"
       = VObj [("_id", VStr "b"); ("token", VStr "t2")].
Proof.
  assert (H1 : "github" <> EmptyString) by discriminate.
  destruct (selectUploaderConfig_found_sets_default
              sample_uuid sample_clock sample_trim
              "github" (VStr "b")
              (VObj [("_id", VStr "b"); ("token", VStr "t2")])
              two_profiles _ H1 eq_refl eq_refl eq_refl eq_refl)
    as (s' & Hrun & Hd & Hp & _).
  exists s'. split; [exact Hrun|]. split; [exact Hd | exact Hp].
Defined.

(** X7. Selecting an id that exactly one stored profile has establishes
    the invariant on the default id, whatever the default id was before. *)
Theorem selectUploaderConfig_establishes_default_invariant
    (newUuid : nat -> string) (dateNow : nat -> Z)
    (trimValues : value -> obj)
    (type : string) (id config : value) (s : store) (cl : list value) :
  type <> EmptyString ->
  stored s ("uploader." ++ type ++ ".configList") = VArr cl ->
  find_by_id id cl = Some config ->
  truthy config = true ->
  count_id id cl = 1 ->
  exists s',
    selectUploaderConfig newUuid dateNow trimValues type id s = Ret config s'
    /\ default_consistent s' type = true.
Proof.
  intros Hty Hcl Hfind Htr Hcount.
  destruct (selectUploaderConfig_found_run newUuid dateNow trimValues
              type id config s cl Hty Hcl Hfind Htr)
    as (s' & Hrun & Hd & _ & Hl & _).
  exists s'. split; [exact Hrun|].
  unfold default_consistent. rewrite Hl, Hd, Hcount.
  now destruct cl.
Qed.

Lemma selectUploaderConfig_establishes_default_invariant_witness :
  exists s1 s2,
    updateUploaderConfig sample_uuid sample_clock sample_trim
      "github" (VStr "a") (VObj [("token", VStr "t3")]) two_profiles
    = Ret tt s1
    /\ default_consistent s1 "github" = false
    /\ selectUploaderConfig sample_uuid sample_clock sample_trim
         "github" (VStr "b") s1
       = Ret (VObj [("_id", VStr "b"); ("token", VStr "t2")]) s2
    /\ default_consistent s2 "github" = true.
Proof.
  assert (H1 : "github" <> EmptyString) by discriminate.
  pose (s1 := mkStore
    [("uploader",
      VObj [("github",
             VObj [("configList",
                    VArr [VObj [("_id", VStr "a"); ("token", VStr "t3");
                                ("_updatedAt", VNum 1700000000000)];
                          VObj [("_id", VStr "b"); ("token", VStr "t2")]]);
                   ("defaultId", VUndef)])]);
     ("picBed",
      VObj [("github", VObj [("_id", VStr "a"); ("token", VStr "t3");
                             ("_updatedAt", VNum 1700000000000)])])]
    [CONFIG_CHANGE "uploader.github.configList"
       (VArr [VObj [("_id", VStr "a"); ("token", VStr "t3");
                    ("_updatedAt", VNum 1700000000000)];
              VObj [("_id", VStr "b"); ("token", VStr "t2")]]);
     CONFIG_CHANGE "uploader.github.defaultId" VUndef;
     CONFIG_CHANGE "picBed.github"
       (VObj [("_id", VStr "a"); ("token", VStr "t3");
              ("_updatedAt", VNum 1700000000000)])] 0 1).
  destruct (selectUploaderConfig_establishes_default_invariant
              sample_uuid sample_clock sample_trim
              "github" (VStr "b")
              (VObj [("_id", VStr "b"); ("token", VStr "t2")])
              s1 _ H1 eq_refl eq_refl eq_refl eq_refl)
    as (s2 & Hrun & Hinv).
  exists s1, s2. split; [lazy; reflexivity|].
  split; [reflexivity|]. split; [exact Hrun | exact Hinv].
Defined.

(** ** Deleting from a stored list *)

Lemma filter_out_id_total (id : value) (cl : list value) :
  forallb not_nullish cl = true ->
  filter_out_id id cl = Some (without_id id cl).
Proof.
  unfold without_id.
  induction cl as [|x r IH]; cbn [forallb filter_out_id filter]; intros H;
    [reflexivity|].
  apply andb_prop in H as [Hx Hr]. rewrite (IH Hr).
  unfold id_is.
  destruct x; try discriminate;
    match goal with
    | |- context [strict_eq ?a id] =>
        generalize (strict_eq a id); intros []; reflexivity
    end.
Qed.

Lemma without_id_absent (id : value) (cl : list value) :
  forallb not_nullish cl = true -> id_absent id (without_id id cl).
Proof.
  intros H. unfold id_absent, without_id. apply Forall_forall.
  intros x Hx. apply filter_In in Hx as [Hin Hneq].
  assert (Hnn : not_nullish x = true)
    by (exact (proj1 (forallb_forall _ _) H x Hin)).
  unfold id_is. apply negb_true_iff in Hneq.
  destruct x; try discriminate; now rewrite Hneq.
Qed.

Lemma without_id_length (id : value) (cl : list value) :
  List.length (without_id id cl) + count_id id cl = List.length cl.
Proof.
  unfold without_id, count_id.
  induction cl as [|x r IH]; simpl; [reflexivity|].
  destruct (strict_eq (get_prop x "_id") id); simpl; lia.
Qed.

Lemma without_id_of_absent (id : value) (cl : list value) :
  id_absent id cl -> without_id id cl = cl.
Proof.
  unfold id_absent, without_id.
  induction 1 as [|x r Hx _ IH]; cbn [filter]; [reflexivity|].
  assert (E : strict_eq (get_prop x "_id") id = false).
  { unfold id_is in Hx. destruct x; try discriminate; now injection Hx. }
  rewrite E. cbn [negb]. now rewrite IH.
Qed.

Lemma id_absent_not_nullish (id : value) (cl : list value) :
  id_absent id cl -> forallb not_nullish cl = true.
Proof.
  induction 1 as [|x r Hx _ IH]; simpl; [reflexivity|].
  rewrite IH. now destruct x.
Qed.

(** X8. The last profile of a type cannot be deleted: on a stored list
    with at most one entry [deleteUploaderConfig] returns nothing and the
    store is as before (no write, no event), whatever the id. *)
Theorem deleteUploaderConfig_keeps_last_profile
    (newUuid : nat -> string) (dateNow : nat -> Z)
    (trimValues : value -> obj)
    (type : string) (id : value) (s : store) (cl : list value) :
  type <> EmptyString ->
  stored s ("uploader." ++ type ++ ".configList") = VArr cl ->
  List.length cl <= 1 ->
  deleteUploaderConfig newUuid dateNow trimValues type id s = Ret None s.
Proof. apply deleteUploaderConfig_short_list. Qed.

Lemma deleteUploaderConfig_keeps_last_profile_witness :
  deleteUploaderConfig sample_uuid sample_clock sample_trim
    "smms" (VStr "x")
    (mkStore [("uploader",
               VObj [("smms",
                      VObj [("configList", VArr [VObj [("_id", VStr "x")]]);
                            ("defaultId", VStr "x")])])] [] 0 0)
  = Ret None
      (mkStore [("uploader",
                 VObj [("smms",
                        VObj [("configList", VArr [VObj [("_id", VStr "x")]]);
                              ("defaultId", VStr "x")])])] [] 0 0).
Proof.
  apply (deleteUploaderConfig_keeps_last_profile
           sample_uuid sample_clock sample_trim "smms" (VStr "x") _
           [VObj [("_id", VStr "x")]]).
  - discriminate.
  - reflexivity.
  - simpl. lia.
Defined.

(** X9. On a stored list of two or more profiles, [deleteUploaderConfig]
    with an id other than undefined removes exactly the entries with that
    id: what it returns and stores is the list without them, in the old
    order; no entry left has the id; the list is shorter by the number of
    entries that had it.  Only the list is written, with one event. *)
Theorem deleteUploaderConfig_removes_entries_with_id
    (newUuid : nat -> string) (dateNow : nat -> Z)
    (trimValues : value -> obj)
    (type : string) (id : value) (s : store) (cl : list value) :
  type <> EmptyString ->
  stored s ("uploader." ++ type ++ ".configList") = VArr cl ->
  2 <= List.length cl ->
  forallb not_nullish cl = true ->
  strict_eq id VUndef = false ->
  exists s',
    deleteUploaderConfig newUuid dateNow trimValues type id s
    = Ret (Some (mkItem (VArr (without_id id cl)) VUndef)) s'
    /\ stored s' ("uploader." ++ type ++ ".configList")
       = VArr (without_id id cl)
    /\ id_absent id (without_id id cl)
    /\ List.length (without_id id cl) + count_id id cl = List.length cl
    /\ emitted s'
       = (emitted s
          ++ [CONFIG_CHANGE ("uploader." ++ type ++ ".configList")
                            (VArr (without_id id cl))])%list.
Proof.
  intros Hty Hcl Hlen Hnn Hid.
  destruct (deleteUploaderConfig_only_writes_list newUuid dateNow trimValues
              type id s cl (without_id id cl) Hty Hcl Hlen Hid
              (filter_out_id_total id cl Hnn))
    as (s' & Hrun & Hl & _ & _ & He).
  exists s'. repeat split; auto.
  - now apply without_id_absent.
  - apply without_id_length.
Qed.

Lemma deleteUploaderConfig_removes_entries_with_id_witness :
  exists s',
    deleteUploaderConfig sample_uuid sample_clock sample_trim
      "github" (VStr "b") two_profiles
    = Ret (Some (mkItem
                   (VArr [VObj [("_id", VStr "a"); ("token", VStr "t1")]])
                   VUndef)) s'
    /\ stored s' "uploader.github.configList"
       = VArr [VObj [("_id", VStr "a"); ("token", VStr "t1")]].
Proof.
  assert (H1 : "github" <> EmptyString) by discriminate.
  assert (H3 : 2 <= List.length
                      [VObj [("_id", VStr "a"); ("token", VStr "t1")];
                       VObj [("_id", VStr "b"); ("token", VStr "t2")]])
    by (simpl; lia).
  destruct (deleteUploaderConfig_removes_entries_with_id
              sample_uuid sample_clock sample_trim
              "github" (VStr "b") two_profiles _ H1 eq_refl H3
              eq_refl eq_refl)
    as (s' & Hrun & Hl & _).
  exists s'. split; [exact Hrun | exact Hl].
Defined.

Lemma put_same (k : string) (v : value) (o : obj) :
  lookup k o = Some v -> put k v o = o.
Proof.
  induction o as [|[k' v'] r IH]; simpl; [discriminate|].
  destruct (String.eqb k k') eqn:E.
  - intros H. injection H as ->. reflexivity.
  - intros H. now rewrite IH.
Qed.

(** Writing at a path the value it already holds changes nothing. *)
Lemma baseSet_same (p : list string) :
  forall (o : obj) (v : value),
    p <> [] -> v <> VUndef -> baseGet (VObj o) p = v -> baseSet o p v = o.
Proof.
  induction p as [|k r IH]; intros o v Hp Hv Hget; [congruence|].
  destruct r as [|k' r'].
  - cbn in Hget. cbn [baseSet]. apply put_same.
    destruct (lookup k o); congruence.
  - rewrite baseSet_cons. rewrite baseGet_nested in Hget.
    unfold nested_at in *.
    destruct (lookup k o) as [x|] eqn:El.
    + destruct x as [| | | | | |n];
        try (cbn in Hget; rewrite baseGet_undef in Hget; congruence).
      rewrite (IH n v) by (auto; discriminate).
      now apply put_same.
    + cbn in Hget. rewrite baseGet_undef in Hget. congruence.
Qed.

(** X10. Deleting an id that no stored profile has is not reported as a
    failure: on a list of two or more profiles the call returns the whole
    list, the document is exactly what it was, and one change event for the
    list is emitted all the same. *)
Theorem deleteUploaderConfig_unknown_id_rewrites_list
    (newUuid : nat -> string) (dateNow : nat -> Z)
    (trimValues : value -> obj)
    (type : string) (id : value) (s : store) (cl : list value) :
  type <> EmptyString ->
  stored s ("uploader." ++ type ++ ".configList") = VArr cl ->
  2 <= List.length cl ->
  id_absent id cl ->
  strict_eq id VUndef = false ->
  exists s',
    deleteUploaderConfig newUuid dateNow trimValues type id s
    = Ret (Some (mkItem (VArr cl) VUndef)) s'
    /\ reactiveCfg s' = reactiveCfg s
    /\ emitted s'
       = (emitted s
          ++ [CONFIG_CHANGE ("uploader." ++ type ++ ".configList")
                            (VArr cl)])%list.
Proof.
  intros Hty Hcl Hlen Habs Hid.
  eexists. split.
  { unfold deleteUploaderConfig, bind.
    rewrite getUploaderConfigList_stored by (rewrite ?Hcl; auto).
    rewrite Hcl. cbn [configList].
    assert (Hleb : Nat.leb (List.length cl) 1 = false)
      by (apply Nat.leb_gt; lia).
    rewrite Hleb.
    rewrite (filter_out_id_total id cl (id_absent_not_nullish _ _ Habs)).
    rewrite (without_id_of_absent _ _ Habs), Hid.
    cbn [lift_option ret]. rewrite save_single. reflexivity. }
  cbn [reactiveCfg emitted]. split; [|reflexivity].
  unfold lodash_set. apply baseSet_same.
  - apply stringToPath_nonempty.
  - discriminate.
  - now rewrite <- stored_baseGet.
Qed.

Lemma deleteUploaderConfig_unknown_id_rewrites_list_witness :
  exists s',
    deleteUploaderConfig sample_uuid sample_clock sample_trim
      "github" (VStr "zz") two_profiles
    = Ret (Some (mkItem
                   (VArr [VObj [("_id", VStr "a"); ("token", VStr "t1")];
                          VObj [("_id", VStr "b"); ("token", VStr "t2")]])
                   VUndef)) s'
    /\ reactiveCfg s' = reactiveCfg two_profiles
    /\ List.length (emitted s') = 1.
Proof.
  assert (H1 : "github" <> EmptyString) by discriminate.
  assert (H3 : 2 <= List.length
                      [VObj [("_id", VStr "a"); ("token", VStr "t1")];
                       VObj [("_id", VStr "b"); ("token", VStr "t2")]])
    by (simpl; lia).
  assert (H4 : id_absent (VStr "zz")
                 [VObj [("_id", VStr "a"); ("token", VStr "t1")];
                  VObj [("_id", VStr "b"); ("token", VStr "t2")]])
    by (repeat constructor).
  destruct (deleteUploaderConfig_unknown_id_rewrites_list
              sample_uuid sample_clock sample_trim
              "github" (VStr "zz") two_profiles _ H1 eq_refl H3 H4 eq_refl)
    as (s' & Hrun & Hdoc & He).
  exists s'. split; [exact Hrun|]. split; [exact Hdoc|].
  rewrite He. reflexivity.
Defined.

(** ** [Object.assign] and the stamps of a profile *)

Lemma lookup_app (k : string) (a b : obj) :
  lookup k (a ++ b)%list
  = match lookup k a with
    | Some v => Some v
    | None => lookup k b
    end.
Proof.
  induction a as [|[k' v'] r IH]; simpl; [reflexivity|].
  now destruct (String.eqb k k').
Qed.

(** In [Object.assign(target, source)] the last binding of a key in the
    source wins, and a key the source does not have keeps the target's
    value. *)
Lemma lookup_assign (k : string) (source : obj) :
  forall target,
    lookup k (assign target source)
    = match lookup k (rev source) with
      | Some v => Some v
      | None => lookup k target
      end.
Proof.
  unfold assign.
  induction source as [|[k' v'] r IH]; intros target; [reflexivity|].
  cbn [fold_left fst snd rev]. rewrite IH, lookup_app.
  destruct (lookup k (rev r)); [reflexivity|].
  cbn [lookup]. destruct (String.eqb k k') eqn:E.
  - apply String.eqb_eq in E. subst. apply lookup_put_same.
  - now apply lookup_put_other.
Qed.

(** X11. [completeUploaderMetaConfig] asks the id generator once and the
    clock twice and writes nothing.  In the profile it builds, [_id],
    [_createdAt] and [_updatedAt] are the generator's id and the two clock
    readings even when the data handed in has values of its own for them;
    [_configName] is the one handed in (the last, after trimming) and
    Default when there is none. *)
Theorem completeUploaderMetaConfig_stamps
    (newUuid : nat -> string) (dateNow : nat -> Z)
    (trimValues : value -> obj) (originData : value) (s : store) :
  exists meta,
    completeUploaderMetaConfig newUuid dateNow trimValues originData s
    = Ret meta (mkStore (reactiveCfg s) (emitted s)
                        (S (uuidCalls s)) (S (S (clockCalls s))))
    /\ get_prop (VObj meta) "_id" = VStr (newUuid (uuidCalls s))
    /\ get_prop (VObj meta) "_createdAt" = VNum (dateNow (clockCalls s))
    /\ get_prop (VObj meta) "_updatedAt"
       = VNum (dateNow (S (clockCalls s)))
    /\ get_prop (VObj meta) "_configName"
       = match lookup "_configName" (rev (trimValues originData)) with
         | Some v => v
         | None => VStr "Default"
         end.
Proof.
  eexists. split; [reflexivity|].
  destruct (meta_fields
              (assign [("_configName", VStr "Default")]
                      (trimValues originData))
              (VStr (newUuid (uuidCalls s)))
              (VNum (dateNow (clockCalls s)))
              (VNum (dateNow (S (clockCalls s))))) as (Ha & Hb & Hc).
  cbn [reactiveCfg emitted uuidCalls clockCalls].
  repeat split; try assumption.
  cbn [assign fold_left fst snd get_prop].
  rewrite !lookup_put_other by reflexivity.
  change (fold_left (fun t kv => put (fst kv) (snd kv) t)
                    (trimValues originData)
                    [("_configName", VStr "Default")])
    with (assign [("_configName", VStr "Default")] (trimValues originData)).
  rewrite lookup_assign.
  now destruct (lookup "_configName" (rev (trimValues originData))).
Qed.

(** ** Updating a stored profile in place *)

Lemma find_by_id_split (id : value) (cl : list value) (fields : obj) :
  find_by_id id cl = Some (VObj fields) ->
  exists pre post,
    cl = (pre ++ VObj fields :: post)%list
    /\ id_absent id pre
    /\ id_is id (VObj fields) = Some true.
Proof.
  induction cl as [|x r IH]; cbn [find_by_id]; [discriminate|].
  destruct (id_is id x) as [[|]|] eqn:E; [| |discriminate].
  - intros H. injection H as ->. exists [], r. repeat split; auto.
    constructor.
  - intros H. destruct (IH H) as (pre & post & -> & Hpre & Hx).
    exists (x :: pre), post. repeat split; auto. now constructor.
Qed.

Lemma replace_by_id_split (id new x : value) (pre post : list value) :
  id_absent id pre ->
  id_is id x = Some true ->
  replace_by_id id new (pre ++ x :: post) = (pre ++ new :: post)%list.
Proof.
  intros Hpre Hx. induction Hpre as [|y r Hy _ IH]; cbn [app replace_by_id].
  - now rewrite Hx.
  - now rewrite Hy, IH.
Qed.

(** X12. [updateUploaderConfig] with the id of a stored profile changes
    that profile only: the entries before and after the first one with the
    id stay, so the list keeps its length.  The new entry is the old one
    with the trimmed fields of the form laid over it and [_updatedAt] set
    to the clock reading; a field the form does not have keeps its value.
    The merged profile becomes the active configuration of the type.  No
    id is drawn and the clock is read once. *)
Theorem updateUploaderConfig_merge_changes_one_entry
    (newUuid : nat -> string) (dateNow : nat -> Z)
    (trimValues : value -> obj)
    (type : string) (id config : value) (s : store) (cl : list value)
    (fields : obj) :
  type <> EmptyString ->
  stored s ("uploader." ++ type ++ ".configList") = VArr cl ->
  find_by_id id cl = Some (VObj fields) ->
  exists s' merged pre post,
    updateUploaderConfig newUuid dateNow trimValues type id config s
    = Ret tt s'
    /\ cl = (pre ++ VObj fields :: post)%list
    /\ id_absent id pre
    /\ stored s' ("uploader." ++ type ++ ".configList")
       = VArr (pre ++ merged :: post)
    /\ configList_length s' type = configList_length s type
    /\ get_prop merged "_updatedAt" = VNum (dateNow (clockCalls s))
    /\ (forall k, String.eqb k "_updatedAt" = false ->
                  get_prop merged k
                  = match lookup k (rev (trimValues config)) with
                    | Some v => v
                    | None => get_prop (VObj fields) k
                    end)
    /\ stored s' ("picBed." ++ type) = merged
    /\ uuidCalls s' = uuidCalls s
    /\ clockCalls s' = S (clockCalls s).
Proof.
  intros Hty Hcl Hfind.
  destruct (find_by_id_split _ _ _ Hfind) as (pre & post & Hsplit & Hpre & Hx).
  set (merged := merge_profile (VObj fields) (trimValues config)
                               (dateNow (clockCalls s))).
  set (s1 := mkStore (reactiveCfg s) (emitted s)
                     (uuidCalls s) (S (clockCalls s))).
  destruct (save_profile_patch type (VArr (replace_by_id id merged cl))
              VUndef merged s1)
    as (s' & Hrun & H1 & _ & H3 & _ & Hu & Hc).
  exists s', merged, pre, post.
  assert (Hlist : stored s' ("uploader." ++ type ++ ".configList")
                  = VArr (pre ++ merged :: post)).
  { rewrite stored_baseGet, H1, Hsplit.
    now rewrite (replace_by_id_split id merged _ pre post Hpre Hx). }
  split.
  { unfold updateUploaderConfig, bind.
    rewrite getUploaderConfigList_stored by (rewrite ?Hcl; auto).
    rewrite Hcl. cbn [configList]. rewrite Hfind.
    cbn [lift_option ret truthy]. unfold Date_now.
    fold merged s1. exact Hrun. }
  split; [exact Hsplit|]. split; [exact Hpre|]. split; [exact Hlist|].
  split.
  { unfold configList_length. rewrite Hlist, Hcl, Hsplit.
    rewrite !length_app. reflexivity. }
  split.
  { unfold merged, merge_profile. cbn [assign fold_left fst snd].
    apply get_prop_put_same. }
  split.
  { intros k Hk. unfold merged, merge_profile.
    cbn [get_prop]. rewrite (lookup_assign k [("_updatedAt", _)]).
    cbn [rev app lookup]. rewrite Hk, lookup_assign.
    now destruct (lookup k (rev (trimValues config))). }
  split; [rewrite stored_baseGet; exact H3|].
  split; [exact Hu | exact Hc].
Qed.

Lemma updateUploaderConfig_merge_changes_one_entry_witness :
  exists s',
    updateUploaderConfig sample_uuid sample_clock sample_trim
      "github" (VStr "b") (VObj [("token", VStr "t9")]) two_profiles
    = Ret tt s'
    /\ configList_length s' "github" = 2
    /\ uuidCalls s' = 0.
Proof.
  assert (H1 : "github" <> EmptyString) by discriminate.
  destruct (updateUploaderConfig_merge_changes_one_entry
              sample_uuid sample_clock sample_trim
              "github" (VStr "b") (VObj [("token", VStr "t9")])
              two_profiles _ [("_id", VStr "b"); ("token", VStr "t2")]
              H1 eq_refl eq_refl)
    as (s' & merged & pre & post & Hrun & _ & _ & _ & Hlen & _ & _ & _ & Hu & _).
  exists s'. split; [exact Hrun|]. split; [exact Hlen | exact Hu].
Defined.

(** ** The first read of a type *)

Lemma put_fresh (k : string) (v : value) (t : obj) :
  ~ In k (map fst t) -> put k v t = (t ++ [(k, v)])%list.
Proof.
  induction t as [|[k' v'] r IH]; simpl; intros H; [reflexivity|].
  destruct (String.eqb k k') eqn:E.
  - apply String.eqb_eq in E. subst. exfalso. apply H. now left.
  - rewrite IH; [reflexivity|]. intros Hin. apply H. now right.
Qed.

Lemma put_keys_NoDup (k : string) (v : value) (t : obj) :
  NoDup (map fst t) -> NoDup (map fst (put k v t)).
Proof.
  induction t as [|[k' v'] r IH]; simpl; intros H.
  - repeat constructor. intros [].
  - inversion H as [|? ? Hnotin Hr]; subst.
    destruct (String.eqb k k') eqn:E; simpl.
    + now constructor.
    + constructor; [|now apply IH].
      intros Hin. apply Hnotin.
      clear - Hin E. induction r as [|[k0 v0] r IHr]; simpl in *.
      * destruct Hin as [->|[]]. now rewrite String.eqb_refl in E.
      * destruct (String.eqb k k0) eqn:E0; simpl in *.
        -- exact Hin.
        -- destruct Hin as [->|Hin]; [now left | right; now apply IHr].
Qed.

Lemma assign_keys_NoDup (source target : obj) :
  NoDup (map fst target) -> NoDup (map fst (assign target source)).
Proof.
  unfold assign. revert target.
  induction source as [|[k v] r IH]; intros target H; [exact H|].
  cbn [fold_left fst snd]. apply IH. now apply put_keys_NoDup.
Qed.

(** Copying an object into an empty one gives the object back. *)
Lemma assign_onto (o t : obj) :
  NoDup (map fst (t ++ o)) -> assign t o = (t ++ o)%list.
Proof.
  unfold assign. revert t.
  induction o as [|[k v] r IH]; intros t H; cbn [fold_left fst snd].
  - now rewrite app_nil_r.
  - assert (Hfresh : ~ In k (map fst t)).
    { rewrite map_app in H. apply NoDup_remove_2 in H.
      intros Hin. apply H. apply in_or_app. now left. }
    rewrite (put_fresh _ _ _ Hfresh).
    rewrite IH; rewrite <- app_assoc; [reflexivity | exact H].
Qed.

Section FirstRead.

Variable newUuid : nat -> string.
Variable dateNow : nat -> Z.
Variable trimValues : value -> obj.

(** With no list stored for the type, the read is the migration. *)
Lemma getUploaderConfigList_upgrades (type : string) (s : store) :
  type <> EmptyString ->
  truthy (stored s ("uploader." ++ type ++ ".configList")) = false ->
  stored s ("uploader." ++ type) <> VNull ->
  getUploaderConfigList newUuid dateNow trimValues type s
  = upgradeUploaderConfig newUuid dateNow trimValues type s.
Proof.
  intros Hty Hcl Hnull.
  assert (Hnull' : baseGet (VObj (reactiveCfg s))
                           ("uploader" :: stringToPath type) <> VNull).
  { intros E. apply Hnull. rewrite stored_baseGet, path_uploader. exact E. }
  rewrite stored_baseGet in Hcl.
  change (type ++ ".configList") with (type ++ "." ++ "configList") in Hcl.
  rewrite path_uploader_field in Hcl.
  change (stringToPath "configList") with ["configList"] in Hcl.
  rewrite baseGet_field in Hcl.
  unfold getUploaderConfigList.
  apply String.eqb_neq in Hty. rewrite Hty.
  unfold getPicgoConfig, read_cfg, ret, lodash_get, bind.
  rewrite path_uploader.
  destruct (baseGet (VObj (reactiveCfg s)) ("uploader" :: stringToPath type))
    as [| | | | | |f]; try congruence; try reflexivity.
  now rewrite Hcl.
Qed.

(** X13. The first read of a type that has neither a profile list nor a
    legacy setting creates one profile, with the next id of the generator
    as its [_id] and as the default id, stores the one-entry list and the
    profile as the active configuration, and returns them.  The read after
    it returns the same and changes nothing: the migration runs once. *)
Theorem getUploaderConfigList_first_read_creates_default_profile
    (type : string) (s : store) :
  type <> EmptyString ->
  truthy (stored s ("uploader." ++ type ++ ".configList")) = false ->
  stored s ("uploader." ++ type) <> VNull ->
  stored s ("picBed." ++ type) = VUndef ->
  exists s' profile,
    getUploaderConfigList newUuid dateNow trimValues type s
    = Ret (mkItem (VArr [profile]) (VStr (newUuid (uuidCalls s)))) s'
    /\ get_prop profile "_id" = VStr (newUuid (uuidCalls s))
    /\ stored s' ("uploader." ++ type ++ ".configList") = VArr [profile]
    /\ stored s' ("uploader." ++ type ++ ".defaultId")
       = VStr (newUuid (uuidCalls s))
    /\ stored s' ("picBed." ++ type) = profile
    /\ uuidCalls s' = S (uuidCalls s)
    /\ getUploaderConfigList newUuid dateNow trimValues type s'
       = Ret (mkItem (VArr [profile]) (VStr (newUuid (uuidCalls s)))) s'.
Proof.
  intros Hty Hcl Hnull Hleg.
  set (base := assign [("_configName", VStr "Default")]
                      (trimValues (VObj []))).
  set (a := VStr (newUuid (uuidCalls s))).
  set (b := VNum (dateNow (clockCalls s))).
  set (c := VNum (dateNow (S (clockCalls s)))).
  set (meta := assign base [("_id", a); ("_createdAt", b); ("_updatedAt", c)]).
  destruct (meta_fields base a b c) as (Ha & _). fold meta in Ha.
  assert (Hcopy : assign [] meta = meta).
  { apply assign_onto. cbn [app]. unfold meta, base.
    do 2 apply assign_keys_NoDup. repeat constructor. intros []. }
  set (s1 := mkStore (reactiveCfg s) (emitted s)
                     (S (uuidCalls s)) (S (S (clockCalls s)))).
  set (u := VObj [("configList", VArr [VObj meta]); ("defaultId", a)]).
  destruct (save_migration_patch type u (VObj meta) s1)
    as (s' & Hrun & Hu & Hp & _ & Hn & _).
  assert (Hl' : stored s' ("uploader." ++ type ++ ".configList")
                = VArr [VObj meta]).
  { change (type ++ ".configList") with (type ++ "." ++ "configList").
    rewrite stored_baseGet, path_uploader_field.
    change (stringToPath "configList") with ["configList"].
    now rewrite Hu. }
  assert (Hd' : stored s' ("uploader." ++ type ++ ".defaultId") = a).
  { change (type ++ ".defaultId") with (type ++ "." ++ "defaultId").
    rewrite stored_baseGet, path_uploader_field.
    change (stringToPath "defaultId") with ["defaultId"].
    now rewrite Hu. }
  exists s', (VObj meta). split.
  { rewrite getUploaderConfigList_upgrades by assumption.
    unfold upgradeUploaderConfig, bind, read_cfg.
    rewrite <- stored_baseGet, Hleg.
    unfold completeUploaderMetaConfig, bind, IdUtil_newUuid, Date_now, ret.
    cbn [reactiveCfg emitted uuidCalls clockCalls].
    fold base a b c meta s1. rewrite Hcopy.
    unfold upgrade_persist, bind. rewrite Ha. fold u.
    rewrite Hrun. reflexivity. }
  split; [exact Ha|]. split; [exact Hl'|]. split; [exact Hd'|].
  split; [rewrite stored_baseGet, path_picBed; exact Hp|].
  split; [exact Hn|].
  rewrite getUploaderConfigList_stored by (rewrite ?Hl'; auto).
  rewrite Hl', Hd'. unfold a. cbn [truthy].
  destruct (newUuid (uuidCalls s)); reflexivity.
Qed.

End FirstRead.

Lemma getUploaderConfigList_first_read_creates_default_profile_witness :
  exists s' profile,
    getUploaderConfigList sample_uuid sample_clock sample_trim
      "github" empty_store
    = Ret (mkItem (VArr [profile]) (VStr "id-0")) s'
    /\ getUploaderConfigList sample_uuid sample_clock sample_trim
         "github" s'
       = Ret (mkItem (VArr [profile]) (VStr "id-0")) s'.
Proof.
  assert (H1 : "github" <> EmptyString) by discriminate.
  assert (H3 : stored empty_store ("uploader." ++ "github") <> VNull)
    by discriminate.
  destruct (getUploaderConfigList_first_read_creates_default_profile
              sample_uuid sample_clock sample_trim
              "github" empty_store H1 eq_refl H3 eq_refl)
    as (s' & profile & Hrun & _ & _ & _ & _ & _ & Hagain).
  exists s', profile. split; [exact Hrun | exact Hagain].
Defined.

(** ** Reads of a configured type, and of a damaged one *)

(** X14. Reading a type whose profile list is stored never writes: the
    stored list comes back as it is, with the stored default id, or the
    empty string when that is falsy, and the store is untouched. *)
Theorem getUploaderConfigList_reads_stored_list
    (newUuid : nat -> string) (dateNow : nat -> Z)
    (trimValues : value -> obj) (type : string) (s : store) :
  type <> EmptyString ->
  truthy (stored s ("uploader." ++ type ++ ".configList")) = true ->
  getUploaderConfigList newUuid dateNow trimValues type s
  = Ret (mkItem (stored s ("uploader." ++ type ++ ".configList"))
                (if truthy (stored s ("uploader." ++ type ++ ".defaultId"))
                 then stored s ("uploader." ++ type ++ ".defaultId")
                 else VStr EmptyString)) s.
Proof. apply getUploaderConfigList_stored. Qed.

Lemma getUploaderConfigList_reads_stored_list_witness :
  getUploaderConfigList sample_uuid sample_clock sample_trim
    "github" two_profiles
  = Ret (mkItem (VArr [VObj [("_id", VStr "a"); ("token", VStr "t1")];
                       VObj [("_id", VStr "b"); ("token", VStr "t2")]])
                (VStr "a")) two_profiles.
Proof.
  apply (getUploaderConfigList_reads_stored_list
           sample_uuid sample_clock sample_trim "github" two_profiles).
  - discriminate.
  - reflexivity.
Defined.

(** X15. When what is stored as the profile list of a type is truthy but
    not an array, [selectUploaderConfig] and [updateUploaderConfig] throw
    (there is no [find] to call) and leave the store as it was: nothing is
    written or repaired, and no id or clock reading is used. *)
Theorem select_and_update_throw_on_non_array_list
    (newUuid : nat -> string) (dateNow : nat -> Z)
    (trimValues : value -> obj)
    (type : string) (id config : value) (s : store) :
  type <> EmptyString ->
  truthy (stored s ("uploader." ++ type ++ ".configList")) = true ->
  is_array (stored s ("uploader." ++ type ++ ".configList")) = false ->
  selectUploaderConfig newUuid dateNow trimValues type id s = Throw s
  /\ updateUploaderConfig newUuid dateNow trimValues type id config s
     = Throw s.
Proof.
  intros Hty Htr Harr. split.
  - unfold selectUploaderConfig, bind.
    rewrite getUploaderConfigList_stored by assumption.
    cbn [configList].
    now destruct (stored s ("uploader." ++ type ++ ".configList")).
  - unfold updateUploaderConfig, bind.
    rewrite getUploaderConfigList_stored by assumption.
    cbn [configList].
    now destruct (stored s ("uploader." ++ type ++ ".configList")).
Qed.

Lemma select_and_update_throw_on_non_array_list_witness :
  selectUploaderConfig sample_uuid sample_clock sample_trim
    "github" (VStr "a") list_is_object = Throw list_is_object
  /\ updateUploaderConfig sample_uuid sample_clock sample_trim
       "github" (VStr "a") (VObj [("token", VStr "t")]) list_is_object
     = Throw list_is_object.
Proof.
  apply (select_and_update_throw_on_non_array_list
           sample_uuid sample_clock sample_trim
           "github" (VStr "a") (VObj [("token", VStr "t")]) list_is_object).
  - discriminate.
  - reflexivity.
  - reflexivity.
Defined.

(** ** The backend types and their names *)

Lemma insert_sorted_perm {A} (cmp : A -> A -> Z) (x : A) (l : list A) :
  Permutation (x :: l) (insert_sorted cmp x l).
Proof.
  induction l as [|y r IH]; simpl; [reflexivity|].
  destruct (cmp x y <? 0)%Z; [reflexivity|].
  rewrite perm_swap. now constructor.
Qed.

Lemma sample_sort_perm {A} (cmp : A -> A -> Z) (l : list A) :
  Permutation l (sample_sort cmp l).
Proof.
  unfold sample_sort.
  assert (H : forall acc,
             Permutation (l ++ acc)
               (fold_left (fun acc x => insert_sorted cmp x acc) l acc)).
  { induction l as [|x r IH]; intros acc; [reflexivity|].
    cbn [fold_left app]. rewrite <- IH.
    rewrite <- insert_sorted_perm. apply Permutation_middle. }
  specialize (H []). now rewrite app_nil_r in H.
Qed.

(** X17. Whatever order the engine's sort gives, as long as it only
    reorders, [getPicBeds] returns exactly one entry per id of the
    registry, on a document without a picBed.list as on one whose
    picBed.list is a list of entries that are not null: the entries are,
    up to order, the ids each with the name of its plugin (the id when the
    plugin has none) and the [visible] flag of its entry in the stored
    list (true when it has none, so true throughout when nothing is
    stored).  The store is not touched. *)
Theorem getPicBeds_one_entry_per_registered_type
    (array_sort : (IPicBedType -> IPicBedType -> Z) ->
                  list IPicBedType -> list IPicBedType)
    (ctx : IPicGo) (s : store) :
  (forall cmp beds, Permutation beds (array_sort cmp beds)) ->
  pref_ok (stored s "picBed.list") = true ->
  forallb (registered ctx) (getIdList ctx) = true ->
  exists beds,
    getPicBeds array_sort ctx s = Ret beds s
    /\ Permutation
         (map (bed_of ctx (pref_list (stored s "picBed.list")))
              (getIdList ctx))
         beds
    /\ List.length beds = List.length (getIdList ctx)
    /\ Permutation (map bedType beds) (getIdList ctx)
    /\ (truthy (stored s "picBed.list") = false ->
        Forall (fun b => bedVisible b = VBool true) beds).
Proof.
  intros Hsort Hok Hreg.
  set (l := pref_list (stored s "picBed.list")).
  assert (Hrun : getPicBeds array_sort ctx s
                 = Ret (array_sort github_first
                          (map (bed_of ctx l) (getIdList ctx))) s).
  { destruct (truthy (stored s "picBed.list")) eqn:Ht.
    - unfold l. destruct (stored s "picBed.list") as [| | | | |l0|f] eqn:Est;
        cbn in Ht, Hok; try discriminate;
        try (rewrite Ht in Hok; discriminate).
      cbn [pref_list]. now apply getPicBeds_returns.
    - assert (Hl : l = []).
      { unfold l. destruct (stored s "picBed.list");
          try reflexivity; discriminate. }
      rewrite Hl. unfold getPicBeds, bind.
      now rewrite (proj1 (picBeds_unsorted_no_preference ctx s Ht Hreg)). }
  rewrite Hrun. eexists. split; [reflexivity|].
  pose proof (Hsort github_first (map (bed_of ctx l) (getIdList ctx))) as Hp.
  split; [exact Hp|]. split.
  { rewrite <- (Permutation_length Hp). apply length_map. }
  split.
  { rewrite <- Hp. rewrite map_map. cbn [bed_of bedType]. now rewrite map_id. }
  intros Hf. apply Forall_forall. intros b Hb.
  apply (Permutation_in _ (Permutation_sym Hp)) in Hb.
  apply in_map_iff in Hb as (item & <- & _).
  unfold l. destruct (stored s "picBed.list"); try reflexivity; discriminate.
Qed.

Lemma getPicBeds_one_entry_per_registered_type_witness :
  (exists beds,
      getPicBeds sample_sort sample_ctx empty_store = Ret beds empty_store
      /\ List.length beds = 3
      /\ Permutation (map bedType beds) ["smms"; "github"; "imgur"]
      /\ Forall (fun b => bedVisible b = VBool true) beds)
  /\ exists beds,
      getPicBeds sample_sort sample_ctx all_hidden = Ret beds all_hidden
      /\ List.length beds = 3.
Proof.
  split.
  - destruct (getPicBeds_one_entry_per_registered_type
                sample_sort sample_ctx empty_store
                (fun cmp beds => sample_sort_perm cmp beds)
                eq_refl eq_refl)
      as (beds & Hrun & _ & Hlen & Hty & Hvis).
    exists beds. split; [exact Hrun|]. split; [exact Hlen|].
    split; [exact Hty | exact (Hvis eq_refl)].
  - destruct (getPicBeds_one_entry_per_registered_type
                sample_sort sample_ctx all_hidden
                (fun cmp beds => sample_sort_perm cmp beds)
                eq_refl eq_refl)
      as (beds & Hrun & _ & Hlen & _).
    exists beds. split; [exact Hrun | exact Hlen].
Defined.

Lemma visible_names_filter (picBeds : list IPicBedType) :
  getVisiablePicBedNamesByPicBeds picBeds
  = filter truthy (map bedName (filter is_visible picBeds)).
Proof.
  unfold getVisiablePicBedNamesByPicBeds, is_visible.
  induction picBeds as [|b r IH]; [reflexivity|].
  cbn [map filter].
  destruct (truthy (bedVisible b)); cbn [map filter truthy];
    now rewrite IH.
Qed.

(** X18. [getVisiablePicBedNames] gives the names of the visible entries
    of [getPicBeds], in its order, without the falsy ones.  Unlike
    [getVisiablePicBeds] it has no fallback: when no entry is visible the
    list of names is empty while the list of entries holds SM.MS. *)
Theorem getVisiablePicBedNames_has_no_fallback
    (array_sort : (IPicBedType -> IPicBedType -> Z) ->
                  list IPicBedType -> list IPicBedType)
    (ctx : IPicGo) (s s' : store) (picBeds : list IPicBedType) :
  getPicBeds array_sort ctx s = Ret picBeds s' ->
  exists names,
    getVisiablePicBedNames array_sort ctx s = Ret names s'
    /\ names = filter truthy (map bedName (filter is_visible picBeds))
    /\ Forall (fun n => truthy n = true) names
    /\ (filter is_visible picBeds = [] ->
        names = []
        /\ getVisiablePicBeds array_sort ctx s = Ret [defaultPicbed] s').
Proof.
  intros Hbeds. unfold getVisiablePicBedNames, bind. rewrite Hbeds.
  unfold ret. eexists. split; [reflexivity|].
  rewrite visible_names_filter. split; [reflexivity|]. split.
  - apply Forall_forall. intros n Hn. now apply filter_In in Hn.
  - intros Hnone. rewrite Hnone. split; [reflexivity|].
    unfold getVisiablePicBeds, bind. rewrite Hbeds. fold is_visible.
    now rewrite Hnone.
Qed.

Lemma getVisiablePicBedNames_has_no_fallback_witness :
  exists names,
    getVisiablePicBedNames sample_sort sample_ctx all_hidden
    = Ret names all_hidden
    /\ names = []
    /\ getVisiablePicBeds sample_sort sample_ctx all_hidden
       = Ret [defaultPicbed] all_hidden.
Proof.
  destruct (getVisiablePicBedNames_has_no_fallback
              sample_sort sample_ctx all_hidden all_hidden _ eq_refl)
    as (names & Hrun & _ & _ & Hnone).
  exists names. split; [exact Hrun|]. exact (Hnone eq_refl).
Defined.

(** ** The configuration form *)

Section Form.

Variable newUuid : nat -> string.
Variable dateNow : nat -> Z.
Variable trimValues : value -> obj.

(** X19. What the form submits for a transformer is what it reads back:
    after [doSubmit] the read of the same form returns the submitted
    value (the empty object when undefined was submitted), and the submit
    emitted one event for the key transformer.<configId>. *)
Theorem doSubmit_transformer_round_trip
    (id : string) (configId : option string) (val : value) (s : store) :
  exists s',
    doSubmit newUuid dateNow trimValues "transformer" id configId val s
    = Ret tt s'
    /\ getCurConfigFormData newUuid dateNow trimValues
         "transformer" id configId s'
       = Ret (match val with VUndef => VObj [] | v => v end) s'
    /\ emitted s'
       = (emitted s
          ++ [CONFIG_CHANGE ("transformer." ++ template_of configId) val])%list.
Proof.
  eexists. split.
  { unfold doSubmit. cbn [String.eqb Ascii.eqb Bool.eqb].
    apply save_single. }
  split; [|reflexivity].
  unfold getCurConfigFormData. cbn [String.eqb Ascii.eqb Bool.eqb].
  unfold getPicgoConfig_opt. cbn [String.eqb String.append].
  unfold getPicgoConfig, read_cfg, ret, bind. cbn [reactiveCfg].
  rewrite lodash_get_set_same. now destruct val.
Qed.

(** X20. What the form submits for a plugin is what it reads back, as long
    as the configId is not the empty string: the read returns the
    submitted value, or the default carrying the configId as [_configName]
    when undefined was submitted.  With the empty configId the read
    returns the whole document instead. *)
Theorem doSubmit_plugin_round_trip
    (id : string) (configId : option string) (val : value) (s : store) :
  configId <> Some EmptyString ->
  exists s',
    doSubmit newUuid dateNow trimValues "plugin" id configId val s
    = Ret tt s'
    /\ getCurConfigFormData newUuid dateNow trimValues
         "plugin" id configId s'
       = Ret (match val with
              | VUndef => VObj [("_configName", id_value configId)]
              | v => v
              end) s'
    /\ getCurConfigFormData newUuid dateNow trimValues
         "plugin" id (Some EmptyString) s'
       = Ret (VObj (reactiveCfg s')) s'.
Proof.
  intros Hne. eexists. split.
  { unfold doSubmit. cbn [String.eqb Ascii.eqb Bool.eqb].
    apply save_single. }
  split; [|reflexivity].
  unfold getCurConfigFormData. cbn [String.eqb Ascii.eqb Bool.eqb].
  unfold getPicgoConfig_opt.
  assert (E : String.eqb (template_of configId) EmptyString = false).
  { apply String.eqb_neq. destruct configId as [c|]; simpl.
    - intros ->. now apply Hne.
    - discriminate. }
  rewrite E.
  unfold getPicgoConfig, read_cfg, ret, bind. cbn [reactiveCfg].
  rewrite lodash_get_set_same. now destruct val.
Qed.

Lemma find_by_id_app (id x : value) (pre post : list value) :
  id_absent id pre ->
  id_is id x = Some true ->
  find_by_id id (pre ++ x :: post) = Some x.
Proof.
  intros Hpre Hx. induction Hpre as [|y r Hy _ IH]; cbn [app find_by_id].
  - now rewrite Hx.
  - now rewrite Hy.
Qed.

(** X21. A new uploader profile submitted through the form can be read
    back under the id it was given.  When the submitted value has no
    [_id], every stored profile has one, and the generator's next id is
    the [_id] of none of them, [doSubmit] appends the new profile, and the
    form opened with that id reads exactly that profile. *)
Theorem doSubmit_uploader_new_profile_round_trip
    (type : string) (configId : option string) (val : value) (s : store)
    (cl : list value) :
  type <> EmptyString ->
  stored s ("uploader." ++ type ++ ".configList") = VArr cl ->
  get_prop val "_id" = VUndef ->
  id_absent VUndef cl ->
  id_absent (VStr (newUuid (uuidCalls s))) cl ->
  exists s' profile,
    doSubmit newUuid dateNow trimValues "uploader" type configId val s
    = Ret tt s'
    /\ get_prop profile "_id" = VStr (newUuid (uuidCalls s))
    /\ stored s' ("uploader." ++ type ++ ".configList")
       = VArr (cl ++ [profile])
    /\ getCurConfigFormData newUuid dateNow trimValues
         "uploader" type (Some (newUuid (uuidCalls s))) s'
       = Ret profile s'.
Proof.
  intros Hty Hcl Hval Hundef Hfresh.
  destruct (updateUploaderConfig_create_step newUuid dateNow trimValues
              type VUndef val s cl Hty Hcl Hundef)
    as (s' & profile & Hrun & Hprof & Hpid & _ & _ & Hl & _).
  exists s', profile. split.
  { unfold doSubmit. cbn [String.eqb Ascii.eqb Bool.eqb].
    rewrite Hval. exact Hrun. }
  split; [exact Hpid|]. split; [exact Hl|].
  unfold getCurConfigFormData. cbn [String.eqb Ascii.eqb Bool.eqb].
  unfold bind.
  rewrite getUploaderConfigList_stored by (rewrite ?Hl; auto).
  rewrite Hl. cbn [configList find_in id_value].
  assert (Hx : id_is (VStr (newUuid (uuidCalls s))) profile = Some true).
  { rewrite Hprof. unfold id_is. rewrite <- Hprof, Hpid. cbn [strict_eq].
    now rewrite String.eqb_refl. }
  rewrite (find_by_id_app _ _ cl [] Hfresh Hx).
  cbn [lift_option ret]. rewrite Hprof. reflexivity.
Qed.

End Form.

Lemma doSubmit_plugin_round_trip_witness :
  exists s',
    doSubmit sample_uuid sample_clock sample_trim
      "plugin" "smms" (Some "picgo-plugin-watermark")
      (VObj [("text", VStr "hello")]) empty_store
    = Ret tt s'
    /\ getCurConfigFormData sample_uuid sample_clock sample_trim
         "plugin" "smms" (Some "picgo-plugin-watermark") s'
       = Ret (VObj [("text", VStr "hello")]) s'.
Proof.
  assert (H : Some "picgo-plugin-watermark" <> Some EmptyString)
    by discriminate.
  destruct (doSubmit_plugin_round_trip sample_uuid sample_clock sample_trim
              "smms" (Some "picgo-plugin-watermark")
              (VObj [("text", VStr "hello")]) empty_store H)
    as (s' & Hrun & Hread & _).
  exists s'. split; [exact Hrun | exact Hread].
Defined.

Lemma doSubmit_uploader_new_profile_round_trip_witness :
  exists s' profile,
    doSubmit sample_uuid sample_clock sample_trim
      "uploader" "github" None (VObj [("token", VStr "t3")]) two_profiles
    = Ret tt s'
    /\ getCurConfigFormData sample_uuid sample_clock sample_trim
         "uploader" "github" (Some "id-0") s'
       = Ret profile s'
    /\ get_prop profile "_id" = VStr "id-0".
Proof.
  assert (H1 : "github" <> EmptyString) by discriminate.
  assert (H4 : id_absent VUndef
                 [VObj [("_id", VStr "a"); ("token", VStr "t1")];
                  VObj [("_id", VStr "b"); ("token", VStr "t2")]])
    by (repeat constructor).
  assert (H5 : id_absent (VStr (sample_uuid (uuidCalls two_profiles)))
                 [VObj [("_id", VStr "a"); ("token", VStr "t1")];
                  VObj [("_id", VStr "b"); ("token", VStr "t2")]])
    by (repeat constructor).
  destruct (doSubmit_uploader_new_profile_round_trip
              sample_uuid sample_clock sample_trim
              "github" None (VObj [("token", VStr "t3")]) two_profiles _
              H1 eq_refl eq_refl H4 H5)
    as (s' & profile & Hrun & Hpid & _ & Hread).
  exists s', profile. split; [exact Hrun|]. split; [exact Hread | exact Hpid].
Defined.

(** ** The default id after a new profile *)

(** X22. Creating a profile establishes the invariant on the default id
    whenever the id the generator hands out is not yet the [_id] of a
    stored profile: after the call exactly one entry of the list, the new
    one, has the default id. *)
Theorem updateUploaderConfig_create_establishes_default_invariant
    (newUuid : nat -> string) (dateNow : nat -> Z)
    (trimValues : value -> obj)
    (type : string) (id config : value) (s : store) (cl : list value) :
  type <> EmptyString ->
  stored s ("uploader." ++ type ++ ".configList") = VArr cl ->
  id_absent id cl ->
  id_absent (VStr (newUuid (uuidCalls s))) cl ->
  exists s',
    updateUploaderConfig newUuid dateNow trimValues type id config s
    = Ret tt s'
    /\ count_id (stored s' ("uploader." ++ type ++ ".defaultId"))
                (cl ++ [VObj
                   (assign
                      (assign [("_configName", VStr "Default")]
                              (trimValues config))
                      [("_id", VStr (newUuid (uuidCalls s)));
                       ("_createdAt", VNum (dateNow (clockCalls s)));
                       ("_updatedAt", VNum (dateNow (S (clockCalls s))))])])
       = 1
    /\ default_consistent s' type = true.
Proof.
  intros Hty Hcl Hid Hfresh.
  destruct (updateUploaderConfig_create_step newUuid dateNow trimValues
              type id config s cl Hty Hcl Hid)
    as (s' & profile & Hrun & Hprof & Hpid & _ & _ & Hl & _ & Hd & _).
  exists s'. split; [exact Hrun|].
  assert (Hcount : count_id (stored s' ("uploader." ++ type ++ ".defaultId"))
                            (cl ++ [profile]) = 1).
  { rewrite Hd, count_id_app, (count_id_absent _ _ Hfresh).
    unfold count_id. cbn [filter]. rewrite Hpid. cbn [strict_eq].
    now rewrite String.eqb_refl. }
  split; [now rewrite <- Hprof|].
  unfold default_consistent. rewrite Hl, Hcount.
  now destruct (cl ++ [profile])%list.
Qed.

Lemma updateUploaderConfig_create_establishes_default_invariant_witness :
  exists s',
    updateUploaderConfig sample_uuid sample_clock sample_trim
      "github" (VStr "zz") (VObj [("token", VStr "t3")]) two_profiles
    = Ret tt s'
    /\ default_consistent s' "github" = true.
Proof.
  assert (H1 : "github" <> EmptyString) by discriminate.
  assert (H3 : id_absent (VStr "zz")
                 [VObj [("_id", VStr "a"); ("token", VStr "t1")];
                  VObj [("_id", VStr "b"); ("token", VStr "t2")]])
    by (repeat constructor).
  assert (H4 : id_absent (VStr (sample_uuid (uuidCalls two_profiles)))
                 [VObj [("_id", VStr "a"); ("token", VStr "t1")];
                  VObj [("_id", VStr "b"); ("token", VStr "t2")]])
    by (repeat constructor).
  destruct (updateUploaderConfig_create_establishes_default_invariant
              sample_uuid sample_clock sample_trim
              "github" (VStr "zz") (VObj [("token", VStr "t3")])
              two_profiles _ H1 eq_refl H3 H4)
    as (s' & Hrun & _ & Hinv).
  exists s'. split; [exact Hrun | exact Hinv].
Defined.

(** ** The defaults of the form fields *)

Section FormDefaultsFacts.

Variable newUuid : nat -> string.
Variable dateNow : nat -> Z.
Variable trimValues : value -> obj.
Variable lodash_union : value -> list value -> list value.
Variable ToPropertyKey : value -> string.

(** X23. For a new form [handleConfigChange] reads nothing, writes nothing
    and gives no field a value: whatever the field descriptions say about
    defaults or checked choices, the form is what it was. *)
Theorem handleConfigChange_new_form_takes_no_defaults
    (configType id : string) (configId : option string)
    (val : list value) (form : obj) (s : store) :
  handleConfigChange newUuid dateNow trimValues lodash_union ToPropertyKey
    true configType id configId val form s
  = Ret form s.
Proof.
  unfold handleConfigChange, bind, ret. cbn [fields_of assign fold_left].
  cbn [id_value truthy]. now destruct (Nat.ltb 0 (List.length val)).
Qed.

Lemma default_of_kept (config item : value) (dv : value) :
  default_of lodash_union ToPropertyKey config item = Some dv ->
  field_kept config (field_key ToPropertyKey item) = true ->
  dv = get_prop config (field_key ToPropertyKey item).
Proof.
  unfold default_of, field_kept, field_key. intros H Hk.
  destruct (if strict_eq (get_prop item "type") (VStr "checkbox")
            then _ else _) as [d1|]; [|discriminate].
  rewrite Hk in H. now injection H.
Qed.

Lemma apply_defaults_keeps (config : value) (items : list value) :
  forall form form' k,
    apply_defaults lodash_union ToPropertyKey config items form = Some form' ->
    field_kept config k = true ->
    lookup k form = Some (get_prop config k) ->
    lookup k form' = Some (get_prop config k).
Proof.
  induction items as [|item r IH]; intros form form' k Hrun Hk Hform.
  - cbn in Hrun. now injection Hrun as <-.
  - cbn [apply_defaults] in Hrun.
    destruct (default_of lodash_union ToPropertyKey config item) as [dv|] eqn:Ed;
      [|destruct item; discriminate].
    assert (Hrest : apply_defaults lodash_union ToPropertyKey config r
                      (put (field_key ToPropertyKey item) dv form) = Some form')
      by (destruct item; try discriminate; exact Hrun).
    apply (IH _ _ _ Hrest Hk).
    destruct (String.eqb k (field_key ToPropertyKey item)) eqn:E.
    + apply String.eqb_eq in E. subst k.
      rewrite lookup_put_same. f_equal. now apply default_of_kept.
    + now rewrite lookup_put_other.
Qed.

Lemma apply_defaults_stored_wins (config : value) (items : list value) :
  forall form form' item,
    apply_defaults lodash_union ToPropertyKey config items form = Some form' ->
    In item items ->
    field_kept config (field_key ToPropertyKey item) = true ->
    lookup (field_key ToPropertyKey item) form' = Some (get_prop config (field_key ToPropertyKey item)).
Proof.
  induction items as [|x r IH]; intros form form' item Hrun Hin Hk;
    [contradiction|].
  cbn [apply_defaults] in Hrun.
  destruct (default_of lodash_union ToPropertyKey config x) as [dv|] eqn:Ed;
    [|destruct x; discriminate].
  assert (Hrest : apply_defaults lodash_union ToPropertyKey config r
                    (put (field_key ToPropertyKey x) dv form) = Some form')
    by (destruct x; try discriminate; exact Hrun).
  destruct Hin as [->|Hin].
  - apply (apply_defaults_keeps _ _ _ _ _ Hrest Hk).
    rewrite lookup_put_same. f_equal. now apply default_of_kept.
  - now apply (IH _ _ _ Hrest).
Qed.

Lemma apply_defaults_total (config : value) (items : list value) :
  forallb field_ok items = true ->
  forall form,
    exists form',
      apply_defaults lodash_union ToPropertyKey config items form = Some form'.
Proof.
  induction items as [|item r IH]; intros Hok form; [now exists form|].
  cbn [forallb] in Hok. apply andb_prop in Hok as [Hi Hr].
  unfold field_ok in Hi. apply andb_prop in Hi as [Hnn Hch].
  cbn [apply_defaults].
  assert (Hd : exists dv,
             default_of lodash_union ToPropertyKey config item = Some dv).
  { unfold default_of.
    destruct (checked_defaults item) as [vs|]; [|discriminate].
    destruct (strict_eq (get_prop item "type") (VStr "checkbox"));
      cbn [option_map]; eauto. }
  destruct Hd as [dv Hd]. rewrite Hd.
  destruct item; try discriminate; apply (IH Hr).
Qed.

(** X24. When a stored configuration is edited, a stored value is never
    replaced by a default.  With a non-empty configId and well-formed
    field descriptions, [handleConfigChange] returns, and for every field
    whose name has a value other than undefined in the stored
    configuration, the form holds that value under the name, whatever
    default or checked choices the field declares. *)
Theorem handleConfigChange_stored_value_wins
    (configType id : string) (configId : string)
    (val : list value) (form : obj) (s s' : store) (config : value) :
  configId <> EmptyString ->
  getCurConfigFormData newUuid dateNow trimValues
    configType id (Some configId) s = Ret config s' ->
  forallb field_ok val = true ->
  exists form',
    handleConfigChange newUuid dateNow trimValues lodash_union ToPropertyKey
      false configType id (Some configId) val form s
    = Ret form' s'
    /\ forall item,
        In item val ->
        truthy config = true ->
        get_prop config (ToPropertyKey (get_prop item "name")) <> VUndef ->
        lookup (ToPropertyKey (get_prop item "name")) form'
        = Some (get_prop config (ToPropertyKey (get_prop item "name"))).
Proof.
  intros Hne Hcur Hok.
  destruct (apply_defaults_total config val Hok
              (assign form (fields_of config))) as [form' Hrun].
  exists form'. split.
  - unfold handleConfigChange, bind. rewrite Hcur.
    cbn [id_value truthy].
    apply String.eqb_neq in Hne. rewrite Hne. cbn [negb].
    destruct val as [|item r]; [cbn in Hrun; now injection Hrun as <-|].
    cbn [List.length Nat.ltb Nat.leb]. now rewrite Hrun.
  - intros item Hin Htr Hdef.
    apply (apply_defaults_stored_wins config val _ _ item Hrun Hin).
    unfold field_kept, field_key. rewrite Htr. cbn [andb].
    destruct (strict_eq _ VUndef) eqn:E; [|reflexivity].
    exfalso. apply Hdef.
    destruct (get_prop config (ToPropertyKey (get_prop item "name")));
      simpl in E; try discriminate. reflexivity.
Qed.

End FormDefaultsFacts.

Lemma handleConfigChange_stored_value_wins_witness :
  exists form',
    handleConfigChange sample_uuid sample_clock sample_trim
      sample_union sample_key
      false "transformer" "smms" (Some "watermark")
      [VObj [("name", VStr "text"); ("type", VStr "input");
             ("default", VStr "hello")];
       VObj [("name", VStr "size"); ("type", VStr "input");
             ("default", VNum 12)]]
      [] watermark_configured
    = Ret form' watermark_configured
    /\ lookup "text" form' = Some (VStr "stored").
Proof.
  assert (H1 : "watermark" <> EmptyString) by discriminate.
  destruct (handleConfigChange_stored_value_wins
              sample_uuid sample_clock sample_trim sample_union sample_key
              "transformer" "smms" "watermark"
              [VObj [("name", VStr "text"); ("type", VStr "input");
                     ("default", VStr "hello")];
               VObj [("name", VStr "size"); ("type", VStr "input");
                     ("default", VNum 12)]]
              [] watermark_configured watermark_configured
              (VObj [("text", VStr "stored")])
              H1 eq_refl eq_refl)
    as (form' & Hrun & Hwins).
  exists form'. split; [exact Hrun|].
  apply (Hwins (VObj [("name", VStr "text"); ("type", VStr "input");
                      ("default", VStr "hello")])).
  - now left.
  - reflexivity.
  - discriminate.
Defined.
